(** * bme590final: the Record Store (database.py) and the Filter Library
      (processing.py), embedded shallowly.

    The Python code is modelled at the level at which it is written:
    - Python values that travel through [image_info] are a small tagged
      union [pyval];
    - exceptions are an enumeration [exn]; a call either returns a value or
      raises, [result];
    - the document store behind pymodm is an explicit state [DB] threaded
      through every method; a write that happened before a [raise] stays
      written, as it does in MongoDB;
    - a class namespace is a list of attribute names with the kind of object
      bound to each, which is what [dir] and [callable] look at. *)

From Stdlib Require Import ZArith Ascii String.
From stdpp Require Import base option list strings gmap.

Set Warnings "-register-all".

Open Scope Z_scope.
Open Scope string_scope.

(** ** Python values and exceptions *)

Inductive pyval : Type :=
| PyNone
| PyBool (b : bool)
| PyInt (n : Z)
| PyStr (s : string)
| PyList (l : list pyval)
| PyDict (d : list (string * pyval)).

(** The exception classes raised in the two modules: the built-in ones, and
    classes that a module of the project defines, by name. *)
Inductive exn : Type :=
| TypeError
| AttributeError
| ValueError
| IndexError
| KeyError
| CustomError (name : string).

(** Modelled from the spec: [custom_errors.GrayscaleError].  The module
    [custom_errors], which processing.py imports, is not among the sources;
    the specification describes the error as a domain-specific
    grayscale-requirement error, an error kind of its own. *)
Definition GrayscaleError : exn := CustomError "GrayscaleError".

Inductive result (A : Type) : Type :=
| Ok (a : A)
| Raise (e : exn).
Arguments Ok {A} a.
Arguments Raise {A} e.

Global Instance exn_eq_dec : EqDecision exn.
Proof. solve_decision. Defined.

(** [isinstance(v, dict)], [isinstance(v, str)] and [type(v) != str].  With
    the values above the two string tests agree.  [bool] is a subclass of
    [int], so [isinstance(True, int)] holds. *)
Definition isinstance_dict (v : pyval) : bool :=
  match v with PyDict _ => true | _ => false end.

Definition isinstance_str (v : pyval) : bool :=
  match v with PyStr _ => true | _ => false end.

Definition type_is_str (v : pyval) : bool :=
  match v with PyStr _ => true | _ => false end.

Definition isinstance_int (v : pyval) : bool :=
  match v with PyInt _ | PyBool _ => true | _ => false end.

(** [key in d.keys()] and [d[key]] on a dict with string keys. *)
Fixpoint dict_get (d : list (string * pyval)) (key : string) : option pyval :=
  match d with
  | [] => None
  | (k, v) :: rest => if decide (k = key) then Some v else dict_get rest key
  end.

Definition dict_has (d : list (string * pyval)) (key : string) : bool :=
  match dict_get d key with Some _ => true | None => false end.

Definition getitem (d : list (string * pyval)) (key : string) : result pyval :=
  match dict_get d key with Some v => Ok v | None => Raise KeyError end.

(** [str(s) == v] for a stored string [s]: only an equal string compares
    equal. *)
Definition str_eq (s : string) (v : pyval) : bool :=
  match v with PyStr t => bool_decide (s = t) | _ => false end.

(** [int(v)] on the values that reach it (validation lets through [int] and
    [bool] only). *)
Definition py_int (v : pyval) : result Z :=
  match v with
  | PyInt n => Ok n
  | PyBool b => Ok (if b then 1 else 0)
  | PyStr _ => Raise ValueError
  | _ => Raise TypeError
  end.

(** ** processing.py: the namespace of class [Processing] *)

Module ProcessingClass.

(** What a name is bound to in a class body: a [def] gives a function,
    which is callable; [__doc__], [__module__], [__dict__] and
    [__weakref__] are data. *)
Inductive attr : Type := Function | Data.

Definition callable (a : attr) : bool :=
  match a with Function => true | Data => false end.

(** The class body of [Processing], in source order, with the entries
    Python adds to every class. *)
Definition namespace : list (string * attr) :=
  [ ("__module__", Data); ("__doc__", Data);
    ("__init__", Function);
    ("hist_eq", Function);
    ("contrast_stretch", Function);
    ("log_compression", Function);
    ("reverse_video", Function);
    ("blur", Function);
    ("sharpen", Function);
    ("histogram_gray", Function);
    ("_check_image_type", Function);
    ("_check_image_shape", Function);
    ("_check_grayscale", Function);
    ("__dict__", Data); ("__weakref__", Data) ].

Fixpoint lookup_attr (ns : list (string * attr)) (name : string)
  : option attr :=
  match ns with
  | [] => None
  | (k, a) :: rest => if decide (k = name) then Some a else lookup_attr rest name
  end.

(** The attributes that [Processing] inherits from [object] depend on the
    interpreter, so the namespace of the base class is an argument, [base],
    of everything that looks at it. *)

(** [dir(Processing)]: the names of the class and of its base, each once.
    Python returns them sorted; only membership is used by the caller. *)
Definition dir (base : list (string * attr)) : list string :=
  (namespace.*1 ++
  filter (λ n, negb (bool_decide (is_Some (lookup_attr namespace n))))
    (base.*1))%list.

(** [getattr(Processing, name)] follows the method resolution order. *)
Definition getattr (base : list (string * attr)) (name : string)
  : option attr :=
  match lookup_attr namespace name with
  | Some a => Some a
  | None => lookup_attr base name
  end.

(** [callable(getattr(Processing, func))] for a name taken from [dir]. *)
Definition callable_member (base : list (string * attr)) (func : string)
  : bool :=
  match getattr base func with
  | Some a => callable a
  | None => false
  end.

(** A callable attribute of the base class that the class body does not
    redefine. *)
Definition inherited_callable (base : list (string * attr)) (name : string)
  : Prop :=
  lookup_attr namespace name = None ∧ lookup_attr base name = Some Function.

(** For sample inputs: [object] as CPython 3.6 to 3.10 has it, where
    everything it defines is callable on the class except its docstring.
    Later versions add names, such as [__getstate__] in 3.11. *)
Definition cpython36_object : list (string * attr) :=
  [ ("__class__", Function); ("__delattr__", Function);
    ("__dir__", Function); ("__doc__", Data); ("__eq__", Function);
    ("__format__", Function); ("__ge__", Function);
    ("__getattribute__", Function); ("__gt__", Function);
    ("__hash__", Function); ("__init__", Function);
    ("__init_subclass__", Function); ("__le__", Function);
    ("__lt__", Function); ("__ne__", Function); ("__new__", Function);
    ("__reduce__", Function); ("__reduce_ex__", Function);
    ("__repr__", Function); ("__setattr__", Function);
    ("__sizeof__", Function); ("__str__", Function);
    ("__subclasshook__", Function) ].

(** The operations of the Filter Library: the functions of the class body
    whose name does not start with an underscore. *)
Definition is_public (name : string) : bool :=
  match name with
  | String c _ => negb (bool_decide (c = "_"%char))
  | EmptyString => true
  end.

Definition public_operations : list string :=
  filter (λ n, is_public n)
    (filter (λ ka : string * attr, callable ka.2) namespace).*1.

End ProcessingClass.

(** ** processing.py: the precondition checks and the grayscale-only
    operations *)

Module Processing.

Definition rbind {A B} (r : result A) (f : A → result B) : result B :=
  match r with Ok a => f a | Raise e => Raise e end.

Local Notation "c >>> k" := (rbind c (λ _, k))
  (at level 99, k at level 200, right associativity, only parsing).

Section Operations.
(** The element type of the arrays. *)
Context {pixel : Type}.

(** A numpy array: its [shape] and its elements in row-major order. *)
Record ndarray : Type := mk_ndarray {
  shape : list nat;
  data : list pixel
}.

(** What a caller may pass as [image]. *)
Inductive image_arg : Type :=
| Ndarray (a : ndarray)
| NotArray (v : pyval).

(** The two functions of scikit-image that the grayscale-only
    operations delegate to, [exposure.equalize_hist] and
    [util.invert]. *)
Variable equalize_hist : image_arg → result ndarray.
Variable invert : image_arg → result ndarray.

(** [image.shape] *)
Definition image_shape (image : image_arg) : result (list nat) :=
  match image with
  | Ndarray a => Ok (shape a)
  | NotArray _ => Raise AttributeError
  end.

Definition _check_image_type (image : image_arg) : result bool :=
  match image with
  | Ndarray _ => Ok true
  | NotArray _ => Raise TypeError
  end.

Definition _check_image_shape (image : image_arg) : result bool :=
  rbind (image_shape image) (λ shape,
    if negb (Nat.eqb (length shape) 2) && negb (Nat.eqb (length shape) 3)
    then Raise ValueError
    else Ok true).

Definition _check_grayscale (image : image_arg) : result bool :=
  rbind (image_shape image) (λ shape,
    if Nat.eqb (length shape) 3
    then Raise GrayscaleError
    else Ok true).

Definition hist_eq (image : image_arg) : result ndarray :=
  _check_image_type image >>>
  _check_image_shape image >>>
  _check_grayscale image >>>
  rbind (equalize_hist image) (λ image_he, Ok image_he).

Definition reverse_video (image : image_arg) : result ndarray :=
  _check_image_type image >>>
  _check_image_shape image >>>
  _check_grayscale image >>>
  rbind (invert image) (λ image_reverse, Ok image_reverse).
End Operations.

Arguments ndarray : clear implicits.
Arguments image_arg : clear implicits.

(** The operations that accept colour images as well.  [histogram_gray]
    is left out: past the same two checks it only talks to matplotlib and
    to the file system. *)
Section General.
Context {pixel num : Type}.

(** Python numbers ([sigma], [base], the percentiles) with the integer
    literals of the source, and the functions of numpy and scikit-image that
    the operations call. *)
Variable num_of_int : Z → num.
Variable numpy_percentile :
  image_arg pixel → num * num → result (num * num).
Variable rescale_intensity :
  image_arg pixel → num * num → result (ndarray pixel).
Variable gaussian : image_arg pixel → num → result (ndarray pixel).
Variable numpy_log : ndarray pixel → ndarray pixel.
Variable numpy_log_num : num → num.
Variable add_num : ndarray pixel → num → ndarray pixel.
Variable div_num : ndarray pixel → num → ndarray pixel.
Variable mul_num : num → ndarray pixel → ndarray pixel.
Variable add_arrays : ndarray pixel → ndarray pixel → ndarray pixel.
Variable sub_arrays : ndarray pixel → ndarray pixel → ndarray pixel.

(** The argument seen as the array that [_check_image_type] has shown it
    to be. *)
Definition as_ndarray (image : image_arg pixel) : result (ndarray pixel) :=
  match image with
  | Ndarray a => Ok a
  | NotArray _ => Raise TypeError
  end.

(** [contrast_stretch(image, percentile=(10, 90))] *)
Definition contrast_stretch (image : image_arg pixel) (percentile : num * num)
  : result (ndarray pixel) :=
  _check_image_type image >>>
  _check_image_shape image >>>
  rbind (numpy_percentile image percentile) (λ p,
    let p1 := p.1 in
    let p2 := p.2 in
    rbind (rescale_intensity image (p1, p2)) (λ image_rescale,
      Ok image_rescale)).

(** [log_compression(image, base=10)] *)
Definition log_compression (image : image_arg pixel) (base : num)
  : result (ndarray pixel) :=
  _check_image_type image >>>
  _check_image_shape image >>>
  rbind (as_ndarray image) (λ a,
    let image_log :=
      div_num (numpy_log (add_num a (num_of_int 1))) (numpy_log_num base) in
    Ok image_log).

(** [blur(image, sigma=5)] *)
Definition blur (image : image_arg pixel) (sigma : num)
  : result (ndarray pixel) :=
  _check_image_type image >>>
  _check_image_shape image >>>
  rbind (gaussian image sigma) (λ image_blur, Ok image_blur).

(** [sharpen(image, filter_type=None)]; [filter_type] is not used. *)
Definition sharpen (image : image_arg pixel) (filter_type : pyval)
  : result (ndarray pixel) :=
  _check_image_type image >>>
  _check_image_shape image >>>
  rbind (blur image (num_of_int 5)) (λ image_blur,
    let alpha := num_of_int 1 in
    rbind (as_ndarray image) (λ a,
      let image_sharpened :=
        add_arrays a (mul_num alpha (sub_arrays a image_blur)) in
      Ok image_sharpened)).
End General.

End Processing.

(** ** database.py: the documents *)

(** class [Image].  The fields [image], [width], [height] and [format] are
    declared in the source but never assigned; [timestamp] is the reading
    of the clock taken by [add_image].  [child_ids] and [process_history]
    are pymodm [ListField]s, whose value in a fresh document is the empty
    list.  [parent_id] and [description] hold what the caller supplied. *)
Module Image.
Record t : Type := mk {
  image_id : string;
  user_id : string;
  timestamp : Z;
  description : pyval;
  parent_id : pyval;
  child_ids : list string;
  process_history : list string;
  processing_time : Z;
  process : string
}.

Definition set_child_ids (i : t) (l : list string) : t :=
  mk (image_id i) (user_id i) (timestamp i) (description i) (parent_id i)
     l (process_history i) (processing_time i) (process i).

Definition set_description (i : t) (d : pyval) : t :=
  mk (image_id i) (user_id i) (timestamp i) d (parent_id i)
     (child_ids i) (process_history i) (processing_time i) (process i).
End Image.

(** class [User]: [uploads] maps the id of an upload to the most recent id
    of its lineage; a fresh document has an empty dict. *)
Module User.
Record t : Type := mk {
  user_id : string;
  uploads : gmap string string
}.

Definition set_uploads (u : t) (m : gmap string string) : t :=
  mk (user_id u) m.
End User.

(** ** database.py: [valid_process] *)

Section Store.

(** The namespace of [object], the base class of [Processing], on the
    interpreter at hand. *)
Variable object_namespace : list (string * ProcessingClass.attr).

(** [process not in valid_processes]: list membership by [==]. *)
Definition py_in_strs (v : pyval) (l : list string) : bool :=
  existsb (λ s, str_eq s v) l.

Definition valid_process (process : pyval) : bool :=
  let valid_processes :=
    filter (λ func, ProcessingClass.callable_member object_namespace func)
      (ProcessingClass.dir object_namespace) in
  let valid_processes := (valid_processes ++ ["upload"])%list in
  if negb (py_in_strs process valid_processes) then false else true.

(** The two collections, in the order in which [objects.all()] yields them. *)
Record DB : Type := mkDB {
  images : list Image.t;
  users : list User.t
}.

Definition empty_db : DB := mkDB [] [].

(** What a Python variable of the class [ImageProcessingDB] may hold: a
    document loaded from a collection (a copy: changing it changes the store
    only through [save]) or a plain value such as [None], [False] or a dict. *)
Inductive pyobj : Type :=
| ObjImage (i : Image.t)
| ObjUser (u : User.t)
| ObjVal (v : pyval).

Definition None_ : pyobj := ObjVal PyNone.

(** Truth value of an object in [if obj:]. *)
Definition truthy (o : pyobj) : bool :=
  match o with
  | ObjImage _ | ObjUser _ => true
  | ObjVal PyNone => false
  | ObjVal (PyBool b) => b
  | ObjVal (PyInt n) => negb (Z.eqb n 0)
  | ObjVal (PyStr s) => negb (bool_decide (s = ""))
  | ObjVal (PyList l) => match l with [] => false | _ => true end
  | ObjVal (PyDict d) => match d with [] => false | _ => true end
  end.

(** ** The monad of the methods: store passing with exceptions *)

Definition M (A : Type) : Type := DB → DB * result A.

Definition ret {A} (a : A) : M A := λ db, (db, Ok a).

Definition raise {A} (e : exn) : M A := λ db, (db, Raise e).

Definition bind {A B} (m : M A) (f : A → M B) : M B :=
  λ db, match m db with
        | (db', Ok a) => f a db'
        | (db', Raise e) => (db', Raise e)
        end.

Definition lift {A} (r : result A) : M A := λ db, (db, r).

Notation "x <- c ;; k" := (bind c (λ x, k))
  (at level 20, c at level 99, k at level 200, only parsing).
Notation "c ;;; k" := (bind c (λ _, k))
  (at level 99, k at level 200, right associativity, only parsing).

(** [if cond: raise e] *)
Definition raise_if (cond : bool) (e : exn) : M unit :=
  if cond then raise e else ret tt.

(** ** Attribute access.  A name that the object does not have raises
    [AttributeError]: this is the case of [None], [False] and dicts for every
    field of a document. *)

Definition attr_image_id (o : pyobj) : result pyval :=
  match o with
  | ObjImage i => Ok (PyStr (Image.image_id i))
  | _ => Raise AttributeError
  end.

Definition attr_user_id (o : pyobj) : result pyval :=
  match o with
  | ObjImage i => Ok (PyStr (Image.user_id i))
  | ObjUser u => Ok (PyStr (User.user_id u))
  | ObjVal _ => Raise AttributeError
  end.

Definition attr_process_history (o : pyobj) : result (list string) :=
  match o with
  | ObjImage i => Ok (Image.process_history i)
  | _ => Raise AttributeError
  end.

Definition attr_child_ids (o : pyobj) : result (list string) :=
  match o with
  | ObjImage i => Ok (Image.child_ids i)
  | _ => Raise AttributeError
  end.

Definition attr_parent_id (o : pyobj) : result pyval :=
  match o with
  | ObjImage i => Ok (Image.parent_id i)
  | _ => Raise AttributeError
  end.

(** [user.uploads[key] = value] *)
Definition setitem_uploads (o : pyobj) (key value : string) : result pyobj :=
  match o with
  | ObjUser u => Ok (ObjUser (User.set_uploads u (<[key := value]> (User.uploads u))))
  | _ => Raise AttributeError
  end.

(** ** The object-document mapper *)

(** [doc.save()]: the document with the same primary key is replaced, a new
    key is inserted; the call returns the document.  This is the store's
    side of [save].  What pymodm does before it writes, validating the
    fields and encoding them, is not part of the sources and is not
    modelled: there a blank string field, a mapping key with a dot or an
    integer beyond 64 bits makes [save] raise, and a field declared as text
    is stored as text.  A call that returns here may therefore raise there;
    a call that returns there returns here. *)
Fixpoint put_image (i : Image.t) (l : list Image.t) : list Image.t :=
  match l with
  | [] => [i]
  | x :: rest =>
      if decide (Image.image_id x = Image.image_id i) then i :: rest
      else x :: put_image i rest
  end.

Fixpoint put_user (u : User.t) (l : list User.t) : list User.t :=
  match l with
  | [] => [u]
  | x :: rest =>
      if decide (User.user_id x = User.user_id u) then u :: rest
      else x :: put_user u rest
  end.

Definition save (o : pyobj) : M pyobj :=
  match o with
  | ObjImage i => λ db, (mkDB (put_image i (images db)) (users db), Ok o)
  | ObjUser u => λ db, (mkDB (images db) (put_user u (users db)), Ok o)
  | ObjVal _ => raise AttributeError
  end.

(** [image.delete()] *)
Definition delete (i : Image.t) : M unit :=
  λ db, (mkDB (filter (λ x, Image.image_id x ≠ Image.image_id i) (images db))
              (users db), Ok tt).

(** [Image.objects.all()] and [User.objects.all()] *)
Definition Image_objects_all : M (list Image.t) := λ db, (db, Ok (images db)).
Definition User_objects_all : M (list User.t) := λ db, (db, Ok (users db)).

(** ** database.py: the methods of [ImageProcessingDB] *)

(** The value under [key] seen as the string that validation has shown it
    to be. *)
Definition item_str (d : list (string * pyval)) (key : string) : M string :=
  v <- lift (getitem d key) ;;
  match v with
  | PyStr s => ret s
  | _ => raise TypeError
  end.

Definition image_to_json (image : pyobj) : M pyval :=
  image_id <- lift (attr_image_id image) ;;
  user_id <- lift (attr_user_id image) ;;
  ret (PyDict [("image_id", image_id); ("user_id", user_id)]).

Definition user_to_json (user : pyobj) : M pyval :=
  user_id <- lift (attr_user_id user) ;;
  ret (PyDict [("user_id", user_id)]).

(** The loop of [find_image]: the first document whose id compares equal. *)
Fixpoint find_image_loop (all : list Image.t) (image_id : pyval) : pyobj :=
  match all with
  | [] => None_
  | image :: rest =>
      if str_eq (Image.image_id image) image_id then ObjImage image
      else find_image_loop rest image_id
  end.

Definition find_image (image_id : pyval) : M pyobj :=
  all <- Image_objects_all ;;
  ret (find_image_loop all image_id).

Fixpoint find_user_loop (all : list User.t) (user_id : string) : pyobj :=
  match all with
  | [] => None_
  | user :: rest =>
      if str_eq (User.user_id user) (PyStr user_id) then ObjUser user
      else find_user_loop rest user_id
  end.

Definition find_user (user_id : string) : M pyobj :=
  all <- User_objects_all ;;
  ret (find_user_loop all user_id).

Definition _image_parameter_check (image_info : pyval)
  : M (list (string * pyval)) :=
  match image_info with
  | PyDict d =>
      raise_if (negb (dict_has d "image_id")) AttributeError ;;;
      image_id <- lift (getitem d "image_id") ;;
      raise_if (negb (isinstance_str image_id)) ValueError ;;;
      raise_if (negb (dict_has d "image_data")) AttributeError ;;;
      image_data <- lift (getitem d "image_data") ;;
      raise_if (negb (type_is_str image_data)) TypeError ;;;
      raise_if (negb (dict_has d "processing_time")) AttributeError ;;;
      processing_time <- lift (getitem d "processing_time") ;;
      raise_if (negb (isinstance_int processing_time)) TypeError ;;;
      raise_if (negb (dict_has d "process")) AttributeError ;;;
      process <- lift (getitem d "process") ;;
      raise_if (negb (isinstance_str process)) TypeError ;;;
      raise_if (negb (valid_process process)) ValueError ;;;
      ret d
  | _ => raise TypeError
  end.

Definition add_user (user_id : string) : M pyval :=
  test_user <- find_user user_id ;;
  raise_if (truthy test_user) ValueError ;;;
  let u := ObjUser (User.mk user_id ∅) in
  saved <- save u ;;
  user_to_json saved.

Definition update_user_uploads (user_id : string)
    (process_history : list string) : M pyval :=
  root_id <- lift (match process_history !! 0%nat with
                   | Some x => Ok x | None => Raise IndexError end) ;;
  recent_id <- lift (match last process_history with
                     | Some x => Ok x | None => Raise IndexError end) ;;
  user <- find_user user_id ;;
  user <- match user with
          | ObjVal PyNone => (j <- add_user user_id ;; ret (ObjVal j))
          | _ => ret user
          end ;;
  user <- lift (setitem_uploads user root_id recent_id) ;;
  saved <- save user ;;
  user_to_json saved.

Definition _add_child (child_id : string) (parent_id : pyval)
  : M (option string) :=
  parent_image <- find_image parent_id ;;
  match parent_image with
  | ObjImage p =>
      saved <- save (ObjImage (Image.set_child_ids p
                                 (Image.child_ids p ++ [child_id]))) ;;
      ret (Some child_id)
  | _ => ret None
  end.

Definition add_image (current_time : Z) (user_id : string)
    (image_info : pyval) : M pyval :=
  image_info <- _image_parameter_check image_info ;;
  lineage <-
    (if dict_has image_info "parent_id" then
       parent_id <- lift (getitem image_info "parent_id") ;;
       parent_image <- find_image parent_id ;;
       process_history <- lift (attr_process_history parent_image) ;;
       image_id <- item_str image_info "image_id" ;;
       let process_history := (process_history ++ [image_id])%list in
       _add_child image_id parent_id ;;;
       ret (process_history, parent_id)
     else
       image_id <- item_str image_info "image_id" ;;
       ret ([image_id], PyStr "root")) ;;
  let process_history := lineage.1 in
  let parent_id := lineage.2 in
  processing_time <-
    (if dict_has image_info "processing_time" then
       v <- lift (getitem image_info "processing_time") ;;
       lift (py_int v)
     else ret (-1)) ;;
  update_user_uploads user_id process_history ;;;
  description <-
    (if negb (dict_has image_info "description") then ret (PyStr "None")
     else lift (getitem image_info "description")) ;;
  image_id <- item_str image_info "image_id" ;;
  process <- item_str image_info "process" ;;
  let i := Image.mk image_id user_id current_time description parent_id
             [] process_history processing_time process in
  saved <- save (ObjImage i) ;;
  image_to_json saved.

(** The loop of [update_description] returns at the first match. *)
Fixpoint update_description_loop (all : list Image.t) (image_id : pyval)
    (description : pyval) : M pyobj :=
  match all with
  | [] => ret None_
  | image :: rest =>
      if str_eq (Image.image_id image) image_id
      then save (ObjImage (Image.set_description image description))
      else update_description_loop rest image_id description
  end.

Definition update_description (image_id description : pyval) : M pyobj :=
  all <- Image_objects_all ;;
  update_description_loop all image_id description.

(** The loop of [remove_image] visits every document and deletes each
    match, carrying the flag [removed]. *)
Fixpoint remove_image_loop (all : list Image.t) (image_id : pyval)
    (removed : bool) : M bool :=
  match all with
  | [] => ret removed
  | image :: rest =>
      if str_eq (Image.image_id image) image_id
      then delete image ;;; remove_image_loop rest image_id true
      else remove_image_loop rest image_id removed
  end.

Definition remove_image (image_id : pyval) : M pyval :=
  all <- Image_objects_all ;;
  removed <- remove_image_loop all image_id false ;;
  image_to_json (ObjVal (PyBool removed)).

Definition find_image_parent (image_id : pyval) : M pyobj :=
  image <- find_image image_id ;;
  parent_id <- lift (attr_parent_id image) ;;
  match parent_id with
  | PyNone => ret None_
  | _ => find_image parent_id
  end.

Definition find_image_child (image_id : pyval) : M (list string) :=
  image <- find_image image_id ;;
  child_ids <- lift (attr_child_ids image) ;;
  match child_ids with
  | _ :: _ => child_ids <- lift (attr_child_ids image) ;; ret child_ids
  | [] => ret []
  end.

(** * Specification-side definitions *)

(** The private helpers of [Processing], which [valid_process] accepts
    besides the public operations. *)
Definition private_helpers : list string :=
  ["_check_image_type"; "_check_image_shape"; "_check_grayscale"].

(** What the specification asks of [image_info], once it is a mapping: it
    contains [image_id]: string, [image_data]: string, [processing_time]:
    integer, and [process]: a string that is a recognized process name. *)
Record well_formed (d : list (string * pyval)) : Prop := {
  wf_image_id : ∃ s, dict_get d "image_id" = Some (PyStr s);
  wf_image_data : ∃ s, dict_get d "image_data" = Some (PyStr s);
  wf_processing_time :
    ∃ v, dict_get d "processing_time" = Some v ∧ isinstance_int v = true;
  wf_process :
    ∃ s, dict_get d "process" = Some (PyStr s)
         ∧ valid_process (PyStr s) = true
}.

(** Read off the code: the checks of [_image_parameter_check], each with the
    class of the error that it raises. *)
Inductive violation : pyval → exn → Prop :=
| not_a_dict v :
    isinstance_dict v = false → violation v TypeError
| missing_key d k :
    k ∈ ["image_id"; "image_data"; "processing_time"; "process"] →
    dict_get d k = None → violation (PyDict d) AttributeError
| image_id_not_str d v :
    dict_get d "image_id" = Some v → isinstance_str v = false →
    violation (PyDict d) ValueError
| image_data_not_str d v :
    dict_get d "image_data" = Some v → isinstance_str v = false →
    violation (PyDict d) TypeError
| processing_time_not_int d v :
    dict_get d "processing_time" = Some v → isinstance_int v = false →
    violation (PyDict d) TypeError
| process_not_str d v :
    dict_get d "process" = Some v → isinstance_str v = false →
    violation (PyDict d) TypeError
| process_unrecognized d s :
    dict_get d "process" = Some (PyStr s) →
    valid_process (PyStr s) = false →
    violation (PyDict d) ValueError.

Definition malformed (image_info : pyval) : Prop :=
  ∃ e, violation image_info e.

(** ** Malformed input in the words of the specification *)

(** A recognized process name: the name of a public operation of the Filter
    Library, or the literal "upload". *)
Definition recognized_process (s : string) : Prop :=
  s = "upload" ∨ s ∈ ProcessingClass.public_operations.

(** The constraints on [image_info] and the taxonomy of errors: a value of
    the wrong type is a type error, a required field that is missing an
    attribute error, a field that is present but invalid, such as an
    unrecognized process name, a value error. *)
Inductive constraint_violated : pyval → exn → Prop :=
| cv_not_a_dict v :
    isinstance_dict v = false → constraint_violated v TypeError
| cv_missing_key d k :
    k ∈ ["image_id"; "image_data"; "processing_time"; "process"] →
    dict_get d k = None → constraint_violated (PyDict d) AttributeError
| cv_not_str d k v :
    k ∈ ["image_id"; "image_data"; "process"] →
    dict_get d k = Some v → isinstance_str v = false →
    constraint_violated (PyDict d) TypeError
| cv_not_int d v :
    dict_get d "processing_time" = Some v → isinstance_int v = false →
    constraint_violated (PyDict d) TypeError
| cv_unrecognized d s :
    dict_get d "process" = Some (PyStr s) → ¬ recognized_process s →
    constraint_violated (PyDict d) ValueError.

(** The same constraints as the code enforces them: a process name is
    invalid when [valid_process] does not accept it, and the class of the
    error for an [image_id] of the wrong type is left open among the three
    classes of validation errors. *)
Inductive rejection : pyval → exn → Prop :=
| rj_not_a_dict v :
    isinstance_dict v = false → rejection v TypeError
| rj_missing_key d k :
    k ∈ ["image_id"; "image_data"; "processing_time"; "process"] →
    dict_get d k = None → rejection (PyDict d) AttributeError
| rj_image_id_not_str d v e :
    dict_get d "image_id" = Some v → isinstance_str v = false →
    e ∈ [TypeError; AttributeError; ValueError] →
    rejection (PyDict d) e
| rj_not_str d k v :
    k ∈ ["image_data"; "process"] →
    dict_get d k = Some v → isinstance_str v = false →
    rejection (PyDict d) TypeError
| rj_not_int d v :
    dict_get d "processing_time" = Some v → isinstance_int v = false →
    rejection (PyDict d) TypeError
| rj_process_rejected d s :
    dict_get d "process" = Some (PyStr s) →
    valid_process (PyStr s) = false →
    rejection (PyDict d) ValueError.

(** ** Invariants and shapes of the store *)

(** Identifiers are primary keys: no two documents of a collection share
    one. *)
Definition unique_ids (db : DB) : Prop :=
  NoDup (Image.image_id <$> images db)
  ∧ NoDup (User.user_id <$> users db).

(** The history of every stored image ends with the image's own
    identifier. *)
Definition history_ends_with_id (db : DB) : Prop :=
  ∀ i, i ∈ images db →
       last (Image.process_history i) = Some (Image.image_id i).

Definition store_ok (db : DB) : Prop :=
  unique_ids db ∧ history_ends_with_id db.

(** What the first block of [add_image] computes for a validated mapping
    [d] with identifier [image_id]: the image collection after the parent,
    if any, has been given its new child, the history of the new image and
    its parent identifier. *)
Inductive lineage_of (d : list (string * pyval)) (image_id : string)
    (db : DB) : list Image.t → list string → pyval → Prop :=
| lineage_root :
    dict_get d "parent_id" = None →
    lineage_of d image_id db (images db) [image_id] (PyStr "root")
| lineage_child parent_id p :
    dict_get d "parent_id" = Some parent_id →
    find_image_loop (images db) parent_id = ObjImage p →
    lineage_of d image_id db
      (put_image (Image.set_child_ids p (Image.child_ids p ++ [image_id]))
         (images db))
      (Image.process_history p ++ [image_id])%list parent_id.

(** ** Sample data *)

Definition image_info_a : pyval :=
  PyDict [("image_id", PyStr "a"); ("image_data", PyStr "x");
          ("processing_time", PyInt 5); ("process", PyStr "upload")].

Definition fields_a : list (string * pyval) :=
  [("image_id", PyStr "a"); ("image_data", PyStr "x");
   ("processing_time", PyInt 5); ("process", PyStr "upload")].

Definition fields_b : list (string * pyval) :=
  [("image_id", PyStr "b"); ("image_data", PyStr "x");
   ("processing_time", PyInt 7); ("process", PyStr "blur");
   ("parent_id", PyStr "a")].

Definition store_u0 : DB := mkDB [] [User.mk "u0" ∅].


Definition image_info_bad_process : pyval :=
  PyDict [("image_id", PyStr "a"); ("image_data", PyStr "x");
          ("processing_time", PyInt 5); ("process", PyStr "nonexistent_fn")].

Definition image_info_private_helper : pyval :=
  PyDict [("image_id", PyStr "a"); ("image_data", PyStr "x");
          ("processing_time", PyInt 5);
          ("process", PyStr "_check_grayscale")].

Definition image_info_numeric_id : pyval :=
  PyDict [("image_id", PyInt 5); ("image_data", PyStr "x");
          ("processing_time", PyInt 5); ("process", PyStr "upload")].

Definition parent_a : Image.t :=
  Image.mk "a" "u0" 0 (PyStr "None") (PyStr "root") [] ["a"] 5 "upload".

Definition image_info_b : pyval :=
  PyDict [("image_id", PyStr "b"); ("image_data", PyStr "x");
          ("processing_time", PyInt 7); ("process", PyStr "blur");
          ("parent_id", PyStr "a")].

Definition child_b : Image.t :=
  Image.mk "b" "u0" 1 (PyStr "None") (PyStr "a") [] ["a"; "b"] 7 "blur".

Definition store_a : DB := mkDB [parent_a] [User.mk "u0" {["a" := "a"]}].

Definition store_ab : DB :=
  mkDB [Image.set_child_ids parent_a ["b"]; child_b]
       [User.mk "u0" {["a" := "b"]}].

Definition flat_image : Processing.ndarray Z :=
  Processing.mk_ndarray [4]%nat [1; 2; 3; 4].

Definition gray_image : Processing.ndarray Z :=
  Processing.mk_ndarray [2; 2]%nat [1; 2; 3; 4].

Definition color_image : Processing.ndarray Z :=
  Processing.mk_ndarray [2; 2; 3]%nat [1; 2; 3; 4; 5; 6; 7; 8; 9; 10; 11; 12].

(** * Properties *)

(** ** [valid_process] *)

Lemma py_in_strs_spec (v : pyval) (l : list string) :
  py_in_strs v l = true ↔ ∃ s, v = PyStr s ∧ s ∈ l.
Proof.
  unfold py_in_strs. induction l as [|x l IH]; simpl.
  - split; [discriminate|]. intros (s & _ & Hs). by apply elem_of_nil in Hs.
  - rewrite orb_true_iff, IH. split.
    + intros [Hx | (s & -> & Hs)].
      * destruct v; simpl in Hx; try discriminate.
        apply bool_decide_eq_true in Hx as ->. eexists; split; [done|]. left.
      * eexists; split; [done|]. by right.
    + intros (s & -> & Hs). apply elem_of_cons in Hs as [-> | Hs].
      * left. simpl. by apply bool_decide_eq_true.
      * right. eauto.
Qed.

Lemma public_operations_eq :
  ProcessingClass.public_operations =
  ["hist_eq"; "contrast_stretch"; "log_compression"; "reverse_video";
   "blur"; "sharpen"; "histogram_gray"].
Proof. reflexivity. Qed.

Lemma valid_process_in (p : pyval) :
  valid_process p = true ↔
  ∃ s, p = PyStr s ∧
       s ∈ (filter (λ func,
                 ProcessingClass.callable_member object_namespace func)
              (ProcessingClass.dir object_namespace) ++ ["upload"])%list.
Proof.
  unfold valid_process. rewrite <- py_in_strs_spec.
  destruct (py_in_strs p _); simpl; split; congruence.
Qed.

Lemma lookup_attr_Some ns name a :
  ProcessingClass.lookup_attr ns name = Some a → name ∈ ns.*1.
Proof.
  induction ns as [|[k b] ns IH]; simpl; [discriminate|].
  destruct (decide (k = name)) as [->|]; [left | right; auto].
Qed.

(** The functions that the class body of [Processing] defines. *)
Lemma own_functions (s : string) :
  ProcessingClass.lookup_attr ProcessingClass.namespace s
  = Some ProcessingClass.Function
  ↔ s = "__init__" ∨ s ∈ ProcessingClass.public_operations
    ∨ s ∈ private_helpers.
Proof.
  rewrite public_operations_eq. unfold private_helpers.
  rewrite !elem_of_cons, !elem_of_nil.
  unfold ProcessingClass.namespace. simpl.
  repeat (case_decide;
    [subst; split;
       [first [discriminate
              | intros _; auto 20]
       | first [done
              | intros Hs; decompose [or] Hs;
                first [discriminate | contradiction]]]|]).
  split; [discriminate|].
  intros Hs; decompose [or] Hs; first [congruence | contradiction].
Qed.

(** The names that [valid_process] takes from [dir(Processing)]. *)
Lemma callable_in_dir (s : string) :
  s ∈ filter (λ func, ProcessingClass.callable_member object_namespace func)
        (ProcessingClass.dir object_namespace)
  ↔ ProcessingClass.lookup_attr ProcessingClass.namespace s
    = Some ProcessingClass.Function
    ∨ ProcessingClass.inherited_callable object_namespace s.
Proof.
  rewrite list_elem_of_filter.
  unfold ProcessingClass.callable_member, ProcessingClass.getattr,
    ProcessingClass.dir, ProcessingClass.inherited_callable.
  rewrite elem_of_app, list_elem_of_filter.
  destruct (ProcessingClass.lookup_attr ProcessingClass.namespace s)
    as [[|]|] eqn:Hown.
  - split; [by left|]. intros _. split; [done|]. left.
    by eapply lookup_attr_Some.
  - split; [by intros [? _] | by intros [? | [? _]]].
  - destruct (ProcessingClass.lookup_attr object_namespace s)
      as [[|]|] eqn:Hbase.
    + split; [by right|]. intros _. split; [done|]. right. split; [done|].
      by eapply lookup_attr_Some.
    + split; [by intros [? _] | by intros [? | [_ ?]]].
    + split; [by intros [? _] | by intros [? | [_ ?]]].
Qed.

(** C4, as the code has it: [valid_process] accepts exactly the string
    "upload" and the names of the callable attributes of [Processing]: the
    seven public operations, the three private helpers, [__init__], and the
    callable attributes that the class inherits from [object], whichever
    they are on the interpreter at hand. *)
Theorem valid_process_iff (p : pyval) :
  valid_process p = true ↔
  ∃ s, p = PyStr s ∧
       (s = "upload" ∨ s ∈ ProcessingClass.public_operations
        ∨ s ∈ private_helpers ∨ s = "__init__"
        ∨ ProcessingClass.inherited_callable object_namespace s).
Proof.
  rewrite valid_process_in.
  split; intros (s & -> & Hs); exists s; (split; [done|]).
  - rewrite elem_of_app, callable_in_dir, own_functions,
      list_elem_of_singleton in Hs. tauto.
  - rewrite elem_of_app, callable_in_dir, own_functions,
      list_elem_of_singleton. tauto.
Qed.

(** Whatever the base class provides, the names that the class body binds
    to functions are accepted, and so is "upload"; a value that is not a
    string is not. *)
Lemma valid_process_own (s : string) :
  s = "upload" ∨ s = "__init__" ∨ s ∈ ProcessingClass.public_operations
  ∨ s ∈ private_helpers →
  valid_process (PyStr s) = true.
Proof.
  intros Hs. apply valid_process_in. exists s. split; [done|].
  rewrite elem_of_app, callable_in_dir, own_functions,
    list_elem_of_singleton. tauto.
Qed.

Lemma valid_process_public (s : string) :
  s ∈ ProcessingClass.public_operations → valid_process (PyStr s) = true.
Proof. intros Hs. apply valid_process_own. tauto. Qed.

Lemma valid_process_not_str (p : pyval) :
  isinstance_str p = false → valid_process p = false.
Proof.
  intros Hp. destruct (valid_process p) eqn:E; [|done].
  apply valid_process_in in E as (s & -> & _). discriminate.
Qed.

(** ** Running a method: one step at a time *)

Section Steps.
Context {A B : Type}.
Implicit Types (m : M A) (f : A → M B) (db : DB).

Lemma bind_ok m f db db' a :
  m db = (db', Ok a) → bind m f db = f a db'.
Proof. unfold bind. by intros ->. Qed.

Lemma bind_raise m f db db' e :
  m db = (db', Raise e) → bind m f db = (db', Raise e).
Proof. unfold bind. by intros ->. Qed.

Lemma bind_ret (a : A) f db : bind (ret a) f db = f a db.
Proof. reflexivity. Qed.

Lemma bind_lift_ok (a : A) f db : bind (lift (Ok a)) f db = f a db.
Proof. reflexivity. Qed.

Lemma bind_lift_raise e f db :
  bind (lift (Raise e : result A)) f db = (db, Raise e).
Proof. reflexivity. Qed.
End Steps.

Lemma raise_if_false {B} e (k : unit → M B) db :
  bind (raise_if false e) k db = k tt db.
Proof. reflexivity. Qed.

Lemma raise_if_true {B} e (k : unit → M B) db :
  bind (raise_if true e) k db = (db, Raise e).
Proof. reflexivity. Qed.

Lemma dict_has_Some d k v : dict_get d k = Some v → dict_has d k = true.
Proof. unfold dict_has. by intros ->. Qed.

Lemma dict_has_None d k : dict_get d k = None → dict_has d k = false.
Proof. unfold dict_has. by intros ->. Qed.

Lemma getitem_Some d k v : dict_get d k = Some v → getitem d k = Ok v.
Proof. unfold getitem. by intros ->. Qed.

Lemma item_str_ok d k s db :
  dict_get d k = Some (PyStr s) → item_str d k db = (db, Ok s).
Proof. intros H. unfold item_str. by rewrite (getitem_Some _ _ _ H). Qed.

(** ** Validation of [image_info] *)

Lemma well_formed_no_violation d e :
  well_formed d → ¬ violation (PyDict d) e.
Proof.
  intros [(i & Hi) (x & Hx) (t & Ht & Hint) (p & Hp & Hvalid)] Hv.
  inversion Hv as [v Hd| d' k Hk Hnone| d' v Hg Hs| d' v Hg Hs| d' v Hg Hs
                  | d' v Hg Hs| d' s Hg Hs]; subst.
  - discriminate.
  - rewrite !elem_of_cons, elem_of_nil in Hk.
    destruct Hk as [-> | [-> | [-> | [-> | []]]]]; congruence.
  - rewrite Hi in Hg. by injection Hg as <-.
  - rewrite Hx in Hg. by injection Hg as <-.
  - rewrite Ht in Hg. injection Hg as <-. congruence.
  - rewrite Hp in Hg. by injection Hg as <-.
  - rewrite Hp in Hg. injection Hg as <-. congruence.
Qed.

Lemma isinstance_str_true v : isinstance_str v = true → ∃ s, v = PyStr s.
Proof. destruct v; try discriminate. eauto. Qed.

(** Every input is well formed or violates a constraint, and the check
    returns its argument in the first case and raises the error of a
    violated constraint in the second; it never touches the store. *)
Lemma _image_parameter_check_cases (image_info : pyval) (db : DB) :
  (∃ d, image_info = PyDict d ∧ well_formed d
        ∧ _image_parameter_check image_info db = (db, Ok d))
  ∨ (∃ e, violation image_info e
          ∧ _image_parameter_check image_info db = (db, Raise e)).
Proof.
  destruct image_info as [| b | n | s | l | d];
    try (right; exists TypeError; split; [by constructor | done]).
  unfold _image_parameter_check.
  destruct (dict_get d "image_id") as [i|] eqn:Hi; cycle 1.
  { right. exists AttributeError. split.
    - apply (missing_key d "image_id"); [set_solver | done].
    - by rewrite (dict_has_None _ _ Hi). }
  rewrite (dict_has_Some _ _ _ Hi), raise_if_false, (getitem_Some _ _ _ Hi),
    bind_lift_ok.
  destruct (isinstance_str i) eqn:Hsi; cycle 1.
  { right. exists ValueError. split; [by eapply image_id_not_str | done]. }
  rewrite raise_if_false.
  destruct (dict_get d "image_data") as [x|] eqn:Hx; cycle 1.
  { right. exists AttributeError. split.
    - apply (missing_key d "image_data"); [set_solver | done].
    - by rewrite (dict_has_None _ _ Hx). }
  rewrite (dict_has_Some _ _ _ Hx), raise_if_false, (getitem_Some _ _ _ Hx),
    bind_lift_ok.
  destruct (type_is_str x) eqn:Hsx; cycle 1.
  { right. exists TypeError. split; [by eapply image_data_not_str | done]. }
  rewrite raise_if_false.
  destruct (dict_get d "processing_time") as [t|] eqn:Ht; cycle 1.
  { right. exists AttributeError. split.
    - apply (missing_key d "processing_time"); [set_solver | done].
    - by rewrite (dict_has_None _ _ Ht). }
  rewrite (dict_has_Some _ _ _ Ht), raise_if_false, (getitem_Some _ _ _ Ht),
    bind_lift_ok.
  destruct (isinstance_int t) eqn:Hit; cycle 1.
  { right. exists TypeError. split;
      [by eapply processing_time_not_int | done]. }
  rewrite raise_if_false.
  destruct (dict_get d "process") as [p|] eqn:Hp; cycle 1.
  { right. exists AttributeError. split.
    - apply (missing_key d "process"); [set_solver | done].
    - by rewrite (dict_has_None _ _ Hp). }
  rewrite (dict_has_Some _ _ _ Hp), raise_if_false, (getitem_Some _ _ _ Hp),
    bind_lift_ok.
  destruct (isinstance_str p) eqn:Hsp; cycle 1.
  { right. exists TypeError. split; [by eapply process_not_str | done]. }
  rewrite raise_if_false.
  apply isinstance_str_true in Hsi as (si & ->).
  apply isinstance_str_true in Hsx as (sx & ->).
  apply isinstance_str_true in Hsp as (sp & ->).
  destruct (valid_process (PyStr sp)) eqn:Hvp; cycle 1.
  { right. exists ValueError. split; [by eapply process_unrecognized | done]. }
  left. exists d. split; [done|]. split; [|done].
  split; eauto.
Qed.

Lemma _image_parameter_check_ok d db :
  well_formed d → _image_parameter_check (PyDict d) db = (db, Ok d).
Proof.
  intros Hwf.
  destruct (_image_parameter_check_cases (PyDict d) db)
    as [(d' & [= <-] & _ & H) | (e & Hv & _)]; [done|].
  by destruct (well_formed_no_violation d e).
Qed.

(** Being malformed is the same as not being a well-formed mapping. *)
Lemma malformed_iff (image_info : pyval) :
  malformed image_info ↔ ¬ ∃ d, image_info = PyDict d ∧ well_formed d.
Proof.
  split.
  - intros (e & Hv) (d & -> & Hwf). by destruct (well_formed_no_violation d e).
  - intros Hnot.
    destruct (_image_parameter_check_cases image_info empty_db)
      as [(d & -> & Hwf & _) | (e & Hv & _)].
    + destruct Hnot. eauto.
    + by exists e.
Qed.

Lemma violation_rejection image_info e :
  violation image_info e → rejection image_info e.
Proof.
  intros [v Hv | d k Hk Hn | d v Hg Hs | d v Hg Hs | d v Hg Hs | d v Hg Hs
         | d s Hg Hs].
  - by apply rj_not_a_dict.
  - by apply (rj_missing_key d k).
  - eapply rj_image_id_not_str; [done..|]. set_solver.
  - eapply (rj_not_str d "image_data"); [set_solver | done..].
  - by eapply rj_not_int.
  - eapply (rj_not_str d "process"); [set_solver | done..].
  - by eapply rj_process_rejected.
Qed.

Lemma rejection_violation image_info e :
  rejection image_info e → ∃ e', violation image_info e'.
Proof.
  intros [v Hv | d k Hk Hn | d v e0 Hg Hs _ | d k v Hk Hg Hs | d v Hg Hs
         | d s Hg Hs].
  - eexists. by apply not_a_dict.
  - eexists. by apply (missing_key d k).
  - eexists. by eapply image_id_not_str.
  - rewrite !elem_of_cons, elem_of_nil in Hk.
    destruct Hk as [-> | [-> | []]]; eexists;
      [by eapply image_data_not_str | by eapply process_not_str].
  - eexists. by eapply processing_time_not_int.
  - eexists. by eapply process_unrecognized.
Qed.

Lemma violation_error_class image_info e :
  violation image_info e → e ∈ [TypeError; AttributeError; ValueError].
Proof. intros Hv. destruct Hv; rewrite !elem_of_cons; auto. Qed.

(** C7, as the code has it: an [image_info] that is not a dict, or misses
    a required key, or has a field of the wrong type, or names a process
    that [valid_process] does not accept, makes [add_image] raise before
    anything is written: [TypeError] for a value that is not a dict and for
    an [image_data], [processing_time] or [process] of the wrong type,
    [AttributeError] for a missing key, [ValueError] for a process that is
    not accepted, and one of the three for an [image_id] of the wrong
    type; the store is left as it was. *)
Theorem add_image_rejects_malformed (current_time : Z) (user_id : string)
    (image_info : pyval) (db : DB) :
  (∃ e, rejection image_info e) →
  ∃ e, rejection image_info e
       ∧ e ∈ [TypeError; AttributeError; ValueError]
       ∧ add_image current_time user_id image_info db = (db, Raise e).
Proof.
  intros (e0 & Hr0). destruct (rejection_violation _ _ Hr0) as (e1 & Hv1).
  destruct (_image_parameter_check_cases image_info db)
    as [(d & -> & Hwf & _) | (e & Hv & Hcheck)].
  { by destruct (well_formed_no_violation d e1). }
  exists e. split; [by apply violation_rejection|]. split.
  - by eapply violation_error_class.
  - unfold add_image. by rewrite (bind_raise _ _ _ _ _ Hcheck).
Qed.

(** ** The collections *)

Lemma find_image_eq image_id db :
  find_image image_id db = (db, Ok (find_image_loop (images db) image_id)).
Proof. reflexivity. Qed.

Lemma find_user_eq user_id db :
  find_user user_id db = (db, Ok (find_user_loop (users db) user_id)).
Proof. reflexivity. Qed.

Lemma find_image_loop_cases all image_id :
  find_image_loop all image_id = None_
  ∨ ∃ i, find_image_loop all image_id = ObjImage i.
Proof.
  induction all as [|x all IH]; simpl; [by left|].
  destruct (str_eq _ _); eauto.
Qed.

Lemma find_user_loop_cases all user_id :
  find_user_loop all user_id = None_
  ∨ ∃ u, find_user_loop all user_id = ObjUser u.
Proof.
  induction all as [|x all IH]; simpl; [by left|].
  destruct (bool_decide _); eauto.
Qed.

Lemma str_eq_true s v : str_eq s v = true ↔ v = PyStr s.
Proof.
  destruct v; simpl; try (split; [discriminate | congruence]).
  rewrite bool_decide_eq_true. split; congruence.
Qed.

Lemma str_eq_false s v : str_eq s v = false ↔ v ≠ PyStr s.
Proof. rewrite <- str_eq_true. by destruct (str_eq s v). Qed.

Lemma find_image_loop_found all image_id i :
  find_image_loop all image_id = ObjImage i →
  image_id = PyStr (Image.image_id i) ∧ i ∈ all.
Proof.
  induction all as [|x all IH]; simpl; [discriminate|].
  destruct (str_eq _ _) eqn:E.
  - intros [= ->]. apply str_eq_true in E. split; [done | left].
  - intros H. destruct (IH H). split; [done | by right].
Qed.

Lemma find_image_loop_absent all image_id :
  find_image_loop all image_id = None_ ↔
  ∀ i, i ∈ all → str_eq (Image.image_id i) image_id = false.
Proof.
  induction all as [|x all IH]; simpl.
  - split; [|done]. intros _ i Hi. by apply elem_of_nil in Hi.
  - destruct (str_eq (Image.image_id x) image_id) eqn:E.
    + split; [discriminate|]. intros H. rewrite H in E; [done | left].
    + rewrite IH. split.
      * intros H i [-> | Hi]%elem_of_cons; auto.
      * intros H i Hi. apply H. by right.
Qed.

Lemma find_user_loop_found all user_id u :
  find_user_loop all user_id = ObjUser u → User.user_id u = user_id.
Proof.
  induction all as [|x all IH]; simpl; [discriminate|].
  destruct (bool_decide _) eqn:E; [|done].
  intros [= ->]. by apply bool_decide_eq_true in E.
Qed.

(** A saved document is the one that a later lookup of its key finds, and
    the lookups of other keys are not affected. *)
Lemma find_image_loop_put_eq i all :
  find_image_loop (put_image i all) (PyStr (Image.image_id i)) = ObjImage i.
Proof.
  induction all as [|x all IH]; simpl.
  - by rewrite bool_decide_eq_true_2.
  - destruct (decide (Image.image_id x = Image.image_id i)) as [Heq|Hne]; simpl.
    + by rewrite bool_decide_eq_true_2.
    + by rewrite bool_decide_eq_false_2.
Qed.

Lemma find_image_loop_put_ne i all image_id :
  image_id ≠ PyStr (Image.image_id i) →
  find_image_loop (put_image i all) image_id = find_image_loop all image_id.
Proof.
  intros Hne. apply str_eq_false in Hne.
  induction all as [|x all IH]; simpl.
  - by rewrite Hne.
  - destruct (decide (Image.image_id x = Image.image_id i)) as [Heq|Hx]; simpl.
    + by rewrite Heq, Hne.
    + by rewrite IH.
Qed.

Lemma find_user_loop_put_eq u all :
  find_user_loop (put_user u all) (User.user_id u) = ObjUser u.
Proof.
  induction all as [|x all IH]; simpl.
  - by rewrite bool_decide_eq_true_2.
  - destruct (decide (User.user_id x = User.user_id u)) as [Heq|Hne]; simpl.
    + by rewrite bool_decide_eq_true_2.
    + by rewrite bool_decide_eq_false_2.
Qed.

(** ** [add_user] and [update_user_uploads] *)

Lemma add_user_absent user_id db :
  find_user_loop (users db) user_id = None_ →
  add_user user_id db
  = (mkDB (images db) (put_user (User.mk user_id ∅) (users db)),
     Ok (PyDict [("user_id", PyStr user_id)])).
Proof.
  intros Hnone. unfold add_user.
  rewrite (bind_ok _ _ _ _ _ (find_user_eq user_id db)), Hnone.
  reflexivity.
Qed.

(** "add_user fails when called with the id of a stored user." *)
Lemma add_user_present user_id db u :
  find_user_loop (users db) user_id = ObjUser u →
  add_user user_id db = (db, Raise ValueError).
Proof.
  intros Hu. unfold add_user.
  rewrite (bind_ok _ _ _ _ _ (find_user_eq user_id db)), Hu.
  reflexivity.
Qed.

(** For a stored user the upload mapping is updated and saved. *)
Lemma update_user_uploads_present user_id process_history root_id recent_id
    u db :
  process_history !! 0%nat = Some root_id →
  last process_history = Some recent_id →
  find_user_loop (users db) user_id = ObjUser u →
  update_user_uploads user_id process_history db
  = (mkDB (images db)
       (put_user (User.set_uploads u (<[root_id := recent_id]> (User.uploads u)))
          (users db)),
     Ok (PyDict [("user_id", PyStr (User.user_id u))])).
Proof.
  intros Hroot Hrecent Hu. unfold update_user_uploads.
  rewrite Hroot, Hrecent, !bind_lift_ok.
  rewrite (bind_ok _ _ _ _ _ (find_user_eq user_id db)), Hu.
  reflexivity.
Qed.

Lemma update_user_uploads_present_lookup user_id process_history root_id
    recent_id u db :
  process_history !! 0%nat = Some root_id →
  last process_history = Some recent_id →
  find_user_loop (users db) user_id = ObjUser u →
  ∃ db' u' j,
    update_user_uploads user_id process_history db = (db', Ok j)
    ∧ find_user_loop (users db') user_id = ObjUser u'
    ∧ User.uploads u' !! root_id = Some recent_id.
Proof.
  intros Hroot Hrecent Hu.
  eexists _, _, _. split; [by eapply update_user_uploads_present|].
  simpl. split.
  - pose proof (find_user_loop_found _ _ _ Hu) as Hid. subst user_id.
    apply (find_user_loop_put_eq (User.set_uploads u _)).
  - apply lookup_insert_eq.
Qed.

(** When no user with the identifier is stored, [add_user] creates one and
    hands back its JSON form, a dict; assigning into [.uploads] of that dict
    raises. *)
Lemma update_user_uploads_absent_raises user_id process_history db :
  process_history ≠ [] →
  find_user_loop (users db) user_id = None_ →
  update_user_uploads user_id process_history db
  = (mkDB (images db) (put_user (User.mk user_id ∅) (users db)),
     Raise AttributeError).
Proof.
  intros Hne Hnone.
  destruct process_history as [|root_id rest]; [done|].
  destruct (last (root_id :: rest)) as [recent_id|] eqn:Hlast; cycle 1.
  { by apply last_None in Hlast. }
  assert (Hroot : (root_id :: rest) !! 0%nat = Some root_id) by done.
  unfold update_user_uploads. rewrite Hroot, Hlast, !bind_lift_ok.
  rewrite (bind_ok _ _ _ _ _ (find_user_eq user_id db)), Hnone.
  unfold None_.
  rewrite (bind_ok _ _ _ _ _
             (bind_ok _ _ _ _ _ (add_user_absent user_id db Hnone))).
  reflexivity.
Qed.

(** C3, on the code: when no user with the identifier is stored,
    [update_user_uploads] does create the user, but then raises
    [AttributeError], because [add_user] hands back the JSON form of the
    user, a dict, which has no attribute [uploads]; the stored user keeps
    an empty upload mapping. *)
Theorem update_user_uploads_absent (user_id : string)
    (process_history : list string) (db : DB) :
  process_history ≠ [] →
  find_user_loop (users db) user_id = None_ →
  let db' := mkDB (images db) (put_user (User.mk user_id ∅) (users db)) in
  update_user_uploads user_id process_history db = (db', Raise AttributeError)
  ∧ find_user_loop (users db') user_id = ObjUser (User.mk user_id ∅)
  ∧ ∀ root_id, User.uploads (User.mk user_id ∅) !! root_id = None.
Proof.
  intros Hne Hnone db'. split; [|split].
  - by apply update_user_uploads_absent_raises.
  - apply (find_user_loop_put_eq (User.mk user_id ∅)).
  - intros root_id. apply lookup_empty.
Qed.

Lemma update_user_uploads_absent_witness :
  let db' := mkDB [] [User.mk "u1" ∅] in
  update_user_uploads "u1" ["a"] empty_db = (db', Raise AttributeError)
  ∧ find_user_loop (users db') "u1" = ObjUser (User.mk "u1" ∅)
  ∧ ∀ root_id, User.uploads (User.mk "u1" ∅) !! root_id = None.
Proof.
  apply (update_user_uploads_absent "u1" ["a"] empty_db);
    [discriminate | reflexivity].
Defined.

Lemma update_user_uploads_empty_history user_id db :
  update_user_uploads user_id [] db = (db, Raise IndexError).
Proof. reflexivity. Qed.

(** ** [add_image] *)

Lemma py_int_ok v : isinstance_int v = true → ∃ z, py_int v = Ok z.
Proof. destruct v; try discriminate; simpl; eauto. Qed.

(** The part of [add_image] that precedes [update_user_uploads], for an
    image without parent: validation passes and the lineage starts. *)
Ltac eval_check Hwf :=
  unfold add_image;
  rewrite (bind_ok _ _ _ _ _ (_image_parameter_check_ok _ _ Hwf)).

Lemma processing_time_block d :
  well_formed d →
  ∃ z, (if dict_has d "processing_time" then
          v <- lift (getitem d "processing_time") ;; lift (py_int v)
        else ret (-1)) = ret z.
Proof.
  intros Hwf. destruct (wf_processing_time _ Hwf) as (t & Ht & Hint).
  destruct (py_int_ok _ Hint) as (z & Hz). exists z.
  rewrite (dict_has_Some _ _ _ Ht), (getitem_Some _ _ _ Ht).
  unfold bind, lift, ret. by rewrite Hz.
Qed.

(** C1, on the code: for a user that is not stored yet, [add_image] of a
    valid parentless [image_info] stores no image record: the call creates
    the user and then raises [AttributeError] inside
    [update_user_uploads]. *)
Theorem add_image_root_absent_user (current_time : Z) (user_id : string)
    (d : list (string * pyval)) (db : DB) :
  well_formed d →
  dict_get d "parent_id" = None →
  find_user_loop (users db) user_id = None_ →
  add_image current_time user_id (PyDict d) db
  = (mkDB (images db) (put_user (User.mk user_id ∅) (users db)),
     Raise AttributeError).
Proof.
  intros Hwf Hparent Huser.
  destruct (wf_image_id _ Hwf) as (image_id & Hid).
  eval_check Hwf.
  rewrite (dict_has_None _ _ Hparent).
  rewrite (bind_ok _ _ _ _ _ (bind_ok _ _ _ _ _ (item_str_ok _ _ _ _ Hid))).
  cbn [fst snd].
  destruct (processing_time_block _ Hwf) as (z & ->). rewrite bind_ret.
  apply bind_raise.
  by apply update_user_uploads_absent_raises.
Qed.

(** ** [add_image] under a parent *)

Lemma _add_child_found child_id parent_id p db :
  find_image_loop (images db) parent_id = ObjImage p →
  _add_child child_id parent_id db
  = (mkDB (put_image
             (Image.set_child_ids p (Image.child_ids p ++ [child_id]))
             (images db)) (users db),
     Ok (Some child_id)).
Proof.
  intros Hp. unfold _add_child.
  rewrite (bind_ok _ _ _ _ _ (find_image_eq parent_id db)), Hp.
  reflexivity.
Qed.

Lemma _add_child_not_found child_id parent_id db :
  find_image_loop (images db) parent_id = None_ →
  _add_child child_id parent_id db = (db, Ok None).
Proof.
  intros Hp. unfold _add_child.
  rewrite (bind_ok _ _ _ _ _ (find_image_eq parent_id db)), Hp.
  reflexivity.
Qed.

(** The lineage block of [add_image] when [parent_id] is present and
    found: the history of the parent's copy is extended, and the parent is
    saved with one more child. *)
Lemma lineage_block_found d image_id parent_id p db :
  dict_get d "image_id" = Some (PyStr image_id) →
  dict_get d "parent_id" = Some parent_id →
  find_image_loop (images db) parent_id = ObjImage p →
  (if dict_has d "parent_id" then
     parent_id <- lift (getitem d "parent_id") ;;
     parent_image <- find_image parent_id ;;
     process_history <- lift (attr_process_history parent_image) ;;
     image_id <- item_str d "image_id" ;;
     let process_history := (process_history ++ [image_id])%list in
     _add_child image_id parent_id ;;;
     ret (process_history, parent_id)
   else
     image_id <- item_str d "image_id" ;;
     ret ([image_id], PyStr "root")) db
  = (mkDB (put_image
             (Image.set_child_ids p (Image.child_ids p ++ [image_id]))
             (images db)) (users db),
     Ok ((Image.process_history p ++ [image_id])%list, parent_id)).
Proof.
  intros Hid Hparent Hp.
  rewrite (dict_has_Some _ _ _ Hparent), (getitem_Some _ _ _ Hparent).
  rewrite bind_lift_ok.
  rewrite (bind_ok _ _ _ _ _ (find_image_eq parent_id db)), Hp.
  cbn [attr_process_history]. rewrite bind_lift_ok.
  rewrite (bind_ok _ _ _ _ _ (item_str_ok _ _ _ _ Hid)).
  rewrite (bind_ok _ _ _ _ _ (_add_child_found image_id _ _ _ Hp)).
  reflexivity.
Qed.

(** When [parent_id] is present but names no stored image, the lookup
    gives [None] and reading its history raises. *)
Lemma add_image_parent_not_found (current_time : Z) (user_id : string)
    (d : list (string * pyval)) (parent_id : pyval) (db : DB) :
  well_formed d →
  dict_get d "parent_id" = Some parent_id →
  find_image_loop (images db) parent_id = None_ →
  add_image current_time user_id (PyDict d) db = (db, Raise AttributeError).
Proof.
  intros Hwf Hparent Hp. eval_check Hwf.
  rewrite (dict_has_Some _ _ _ Hparent), (getitem_Some _ _ _ Hparent).
  apply bind_raise. rewrite bind_lift_ok.
  rewrite (bind_ok _ _ _ _ _ (find_image_eq parent_id db)), Hp.
  reflexivity.
Qed.

(** C2, on the code: for a user that is not stored yet, [add_image] under
    a stored parent [p] saves [p] with the new child identifier, creates the
    user, and then raises [AttributeError] inside [update_user_uploads]; the
    new record, with the extended history, is never stored. *)
Theorem add_image_child_absent_user (current_time : Z) (user_id : string)
    (d : list (string * pyval)) (image_id : string) (parent_id : pyval)
    (p : Image.t) (db : DB) :
  well_formed d →
  dict_get d "image_id" = Some (PyStr image_id) →
  dict_get d "parent_id" = Some parent_id →
  find_image_loop (images db) parent_id = ObjImage p →
  find_user_loop (users db) user_id = None_ →
  add_image current_time user_id (PyDict d) db
  = (mkDB (put_image
             (Image.set_child_ids p (Image.child_ids p ++ [image_id]))
             (images db))
       (put_user (User.mk user_id ∅) (users db)),
     Raise AttributeError).
Proof.
  intros Hwf Hid Hparent Hp Huser. eval_check Hwf.
  rewrite (bind_ok _ _ _ _ _ (lineage_block_found _ _ _ _ _ Hid Hparent Hp)).
  cbn [fst snd].
  destruct (processing_time_block _ Hwf) as (z & ->). rewrite bind_ret.
  apply bind_raise.
  apply (update_user_uploads_absent_raises user_id _ (mkDB _ (users db)));
    [|done].
  by destruct (Image.process_history p).
Qed.

(** ** [remove_image] *)

Lemma Image_objects_all_eq db : Image_objects_all db = (db, Ok (images db)).
Proof. reflexivity. Qed.

Lemma image_to_json_not_image v db :
  image_to_json (ObjVal v) db = (db, Raise AttributeError).
Proof. reflexivity. Qed.

Lemma delete_eq i db :
  delete i db
  = (mkDB (filter (λ x, Image.image_id x ≠ Image.image_id i) (images db))
       (users db), Ok tt).
Proof. reflexivity. Qed.

(** The loop over a snapshot [all] of the collection, for a string
    identifier [s]: if some document of the snapshot matches, every document
    with that identifier is gone from the store, and the flag is set. *)
Lemma remove_image_loop_str all s removed db :
  remove_image_loop all (PyStr s) removed db
  = (if existsb (λ i, bool_decide (Image.image_id i = s)) all
     then mkDB (filter (λ x, Image.image_id x ≠ s) (images db)) (users db)
     else db,
     Ok (removed || existsb (λ i, bool_decide (Image.image_id i = s)) all)).
Proof.
  revert removed db. induction all as [|x all IH]; intros removed db; simpl.
  - by rewrite orb_false_r.
  - destruct (bool_decide (Image.image_id x = s)) eqn:E; simpl.
    + apply bool_decide_eq_true in E.
      rewrite (bind_ok _ _ _ _ _ (delete_eq x db)), IH, E, orb_true_r.
      cbn [images users].
      destruct (existsb _ all); [|done].
      by rewrite list_filter_filter_l.
    + by rewrite IH.
Qed.

Lemma remove_image_loop_no_match all image_id removed db :
  (∀ i, i ∈ all → str_eq (Image.image_id i) image_id = false) →
  remove_image_loop all image_id removed db = (db, Ok removed).
Proof.
  revert removed db. induction all as [|x all IH]; intros removed db H; simpl.
  - done.
  - rewrite H by left. apply IH. intros i Hi. apply H. by right.
Qed.

Lemma existsb_elem i all s :
  i ∈ all → Image.image_id i = s →
  existsb (λ i, bool_decide (Image.image_id i = s)) all = true.
Proof.
  intros Hi Hs. apply existsb_exists. exists i. split.
  - by apply list_elem_of_In.
  - by apply bool_decide_eq_true.
Qed.

(** C5, on the code: for an identifier that matches no stored image,
    [remove_image] leaves the store as it is and raises [AttributeError]:
    the flag [False] is handed to [image_to_json], which reads [.image_id]
    from it. *)
Theorem remove_image_absent (image_id : pyval) (db : DB) :
  find_image_loop (images db) image_id = None_ →
  remove_image image_id db = (db, Raise AttributeError).
Proof.
  intros Hnone.
  pose proof (proj1 (find_image_loop_absent _ _) Hnone) as Habs.
  unfold remove_image.
  rewrite (bind_ok _ _ _ _ _ (Image_objects_all_eq db)).
  rewrite (bind_ok _ _ _ _ _
             (remove_image_loop_no_match _ _ false db Habs)).
  apply image_to_json_not_image.
Qed.

Lemma remove_image_absent_witness :
  remove_image (PyStr "nope") (mkDB [parent_a] [])
  = (mkDB [parent_a] [], Raise AttributeError).
Proof. by apply remove_image_absent. Defined.

(** C10: when [remove_image] finds a matching image, the loop deletes it
    and ends with the flag [True]; [image_to_json] applied to that boolean
    raises [AttributeError], so the call raises although the deletion has
    been applied to the store. *)
Theorem remove_image_found (image_id : pyval) (i : Image.t) (db : DB) :
  find_image_loop (images db) image_id = ObjImage i →
  let db' :=
    mkDB (filter (λ x, Image.image_id x ≠ Image.image_id i) (images db))
      (users db) in
  remove_image_loop (images db) image_id false db = (db', Ok true)
  ∧ image_to_json (ObjVal (PyBool true)) db' = (db', Raise AttributeError)
  ∧ remove_image image_id db = (db', Raise AttributeError)
  ∧ find_image_loop (images db') image_id = None_.
Proof.
  intros Hfound db'.
  destruct (find_image_loop_found _ _ _ Hfound) as (-> & Hin).
  assert (Hloop :
    remove_image_loop (images db) (PyStr (Image.image_id i)) false db
    = (db', Ok true)).
  { by rewrite remove_image_loop_str, (existsb_elem i). }
  split; [done|]. split; [done|]. split.
  - unfold remove_image.
    rewrite (bind_ok _ _ _ _ _ (Image_objects_all_eq db)).
    by rewrite (bind_ok _ _ _ _ _ Hloop).
  - apply find_image_loop_absent. intros x Hx.
    apply list_elem_of_filter in Hx as [Hne _].
    simpl. by apply bool_decide_eq_false.
Qed.

Lemma remove_image_found_witness :
  let db' := mkDB [] [] in
  remove_image_loop [parent_a] (PyStr "a") false (mkDB [parent_a] [])
  = (db', Ok true)
  ∧ image_to_json (ObjVal (PyBool true)) db' = (db', Raise AttributeError)
  ∧ remove_image (PyStr "a") (mkDB [parent_a] [])
    = (db', Raise AttributeError)
  ∧ find_image_loop (images db') (PyStr "a") = None_.
Proof.
  apply (remove_image_found (PyStr "a") parent_a (mkDB [parent_a] [])).
  reflexivity.
Defined.

(** ** [find_image_child] and [find_image_parent] *)

(** C6, on the code: for an identifier that matches no stored image,
    [find_image_child] raises [AttributeError] ([find_image] gives [None],
    whose [child_ids] is read without a guard) instead of returning the
    empty list. *)
Theorem find_image_child_absent (image_id : pyval) (db : DB) :
  find_image_loop (images db) image_id = None_ →
  find_image_child image_id db = (db, Raise AttributeError).
Proof.
  intros Hnone. unfold find_image_child.
  rewrite (bind_ok _ _ _ _ _ (find_image_eq image_id db)), Hnone.
  reflexivity.
Qed.

Lemma find_image_child_absent_witness :
  find_image_child (PyStr "nope") empty_db = (empty_db, Raise AttributeError).
Proof. by apply find_image_child_absent. Defined.

(** X3: For a stored image the child list is returned: the list itself when it
    is not empty, and the empty list otherwise. *)
Lemma find_image_child_found (image_id : pyval) (i : Image.t) (db : DB) :
  find_image_loop (images db) image_id = ObjImage i →
  find_image_child image_id db = (db, Ok (Image.child_ids i)).
Proof.
  intros Hfound. unfold find_image_child.
  rewrite (bind_ok _ _ _ _ _ (find_image_eq image_id db)), Hfound.
  cbn [attr_child_ids]. rewrite bind_lift_ok.
  by destruct (Image.child_ids i).
Qed.

Lemma find_image_parent_absent (image_id : pyval) (db : DB) :
  find_image_loop (images db) image_id = None_ →
  find_image_parent image_id db = (db, Raise AttributeError).
Proof.
  intros Hnone. unfold find_image_parent.
  rewrite (bind_ok _ _ _ _ _ (find_image_eq image_id db)), Hnone.
  reflexivity.
Qed.

(** ** The Filter Library: grayscale-only operations *)

Section Grayscale.
Context {pixel : Type}.
Variable equalize_hist invert :
  Processing.image_arg pixel → result (Processing.ndarray pixel).

Lemma _check_grayscale_rank3 (a : Processing.ndarray pixel) :
  length (Processing.shape a) = 3%nat →
  Processing._check_image_type (Processing.Ndarray a) = Ok true
  ∧ Processing._check_image_shape (Processing.Ndarray a) = Ok true
  ∧ Processing._check_grayscale (Processing.Ndarray a)
    = Raise GrayscaleError.
Proof.
  intros Hrank.
  unfold Processing._check_image_shape, Processing._check_grayscale.
  simpl. by rewrite Hrank.
Qed.

(** C8: on every array of rank 3 both grayscale-only operations,
    [hist_eq] and [reverse_video], fail with [GrayscaleError], which is
    neither [TypeError] nor [ValueError]. *)
Theorem grayscale_only_rank3 (a : Processing.ndarray pixel) :
  length (Processing.shape a) = 3%nat →
  Processing.hist_eq equalize_hist (Processing.Ndarray a)
  = Raise GrayscaleError
  ∧ Processing.reverse_video invert (Processing.Ndarray a)
    = Raise GrayscaleError
  ∧ GrayscaleError ≠ TypeError ∧ GrayscaleError ≠ ValueError.
Proof.
  intros Hrank.
  destruct (_check_grayscale_rank3 a Hrank) as (Ht & Hs & Hg).
  unfold Processing.hist_eq, Processing.reverse_video.
  rewrite Ht, Hs, Hg. by repeat split.
Qed.

(** Rank 2 passes the three checks, so the library function decides. *)
Lemma reverse_video_rank2 (a : Processing.ndarray pixel) :
  length (Processing.shape a) = 2%nat →
  Processing.reverse_video invert (Processing.Ndarray a)
  = invert (Processing.Ndarray a).
Proof.
  intros Hrank.
  unfold Processing.reverse_video, Processing._check_image_shape,
    Processing._check_grayscale.
  simpl. rewrite Hrank. simpl. by destruct (invert _).
Qed.
End Grayscale.

Lemma grayscale_only_rank3_witness :
  Processing.hist_eq (λ _, Raise ValueError) (Processing.Ndarray color_image)
  = Raise GrayscaleError
  ∧ Processing.reverse_video (λ _, Raise ValueError)
      (Processing.Ndarray color_image)
    = Raise GrayscaleError
  ∧ GrayscaleError ≠ TypeError ∧ GrayscaleError ≠ ValueError.
Proof.
  apply (grayscale_only_rank3 (λ _, Raise ValueError) (λ _, Raise ValueError)
           color_image).
  reflexivity.
Defined.

(** ** The Filter Library: what every operation checks first *)

Section FilterChecks.
Context {pixel num : Type}.
Variable equalize_hist invert :
  Processing.image_arg pixel → result (Processing.ndarray pixel).
Variable num_of_int : Z → num.
Variable numpy_percentile :
  Processing.image_arg pixel → num * num → result (num * num).
Variable rescale_intensity :
  Processing.image_arg pixel → num * num → result (Processing.ndarray pixel).
Variable gaussian :
  Processing.image_arg pixel → num → result (Processing.ndarray pixel).
Variable numpy_log : Processing.ndarray pixel → Processing.ndarray pixel.
Variable numpy_log_num : num → num.
Variable add_num div_num :
  Processing.ndarray pixel → num → Processing.ndarray pixel.
Variable mul_num : num → Processing.ndarray pixel → Processing.ndarray pixel.
Variable add_arrays sub_arrays :
  Processing.ndarray pixel → Processing.ndarray pixel →
  Processing.ndarray pixel.

Local Abbreviation contrast_stretch :=
  (Processing.contrast_stretch numpy_percentile rescale_intensity).
Local Abbreviation log_compression :=
  (Processing.log_compression num_of_int numpy_log numpy_log_num
     add_num div_num).
Local Abbreviation blur := (Processing.blur gaussian).
Local Abbreviation sharpen :=
  (Processing.sharpen num_of_int gaussian mul_num add_arrays sub_arrays).
Local Abbreviation hist_eq := (Processing.hist_eq equalize_hist).
Local Abbreviation reverse_video := (Processing.reverse_video invert).

Lemma rbind_Ok_id {A} (r : result A) : Processing.rbind r Ok = r.
Proof. by destruct r. Qed.

Lemma checks_bad_rank (a : Processing.ndarray pixel) :
  length (Processing.shape a) ≠ 2%nat →
  length (Processing.shape a) ≠ 3%nat →
  Processing._check_image_shape (Processing.Ndarray a) = Raise ValueError.
Proof.
  intros H2 H3. unfold Processing._check_image_shape. simpl.
  apply Nat.eqb_neq in H2, H3. by rewrite H2, H3.
Qed.

Lemma checks_good_rank (a : Processing.ndarray pixel) :
  length (Processing.shape a) = 2%nat ∨ length (Processing.shape a) = 3%nat →
  Processing._check_image_shape (Processing.Ndarray a) = Ok true.
Proof.
  unfold Processing._check_image_shape. simpl. by intros [-> | ->].
Qed.

(** X4: each of the six array operations rejects an argument that is not a
    numpy array with [TypeError], whatever the imaging library would do
    with it. *)
Theorem operations_reject_non_array (v : pyval) (percentile : num * num)
    (base sigma : num) (filter_type : pyval) :
  hist_eq (Processing.NotArray v) = Raise TypeError
  ∧ contrast_stretch (Processing.NotArray v) percentile = Raise TypeError
  ∧ log_compression (Processing.NotArray v) base = Raise TypeError
  ∧ reverse_video (Processing.NotArray v) = Raise TypeError
  ∧ blur (Processing.NotArray v) sigma = Raise TypeError
  ∧ sharpen (Processing.NotArray v) filter_type = Raise TypeError.
Proof. by repeat split. Qed.

(** X5: each of the six array operations rejects an array whose rank is
    neither 2 nor 3 with [ValueError], before any library call. *)
Theorem operations_reject_bad_rank (a : Processing.ndarray pixel)
    (percentile : num * num) (base sigma : num) (filter_type : pyval) :
  length (Processing.shape a) ≠ 2%nat →
  length (Processing.shape a) ≠ 3%nat →
  hist_eq (Processing.Ndarray a) = Raise ValueError
  ∧ contrast_stretch (Processing.Ndarray a) percentile = Raise ValueError
  ∧ log_compression (Processing.Ndarray a) base = Raise ValueError
  ∧ reverse_video (Processing.Ndarray a) = Raise ValueError
  ∧ blur (Processing.Ndarray a) sigma = Raise ValueError
  ∧ sharpen (Processing.Ndarray a) filter_type = Raise ValueError.
Proof.
  intros H2 H3. pose proof (checks_bad_rank a H2 H3) as Hs.
  unfold Processing.hist_eq, Processing.contrast_stretch,
    Processing.log_compression, Processing.reverse_video, Processing.blur,
    Processing.sharpen.
  rewrite Hs. by repeat split.
Qed.

(** X6: on an array of rank 2 or 3 the four general operations pass their
    checks: [blur] is the library's Gaussian filter, [contrast_stretch]
    rescales to the two percentiles, [log_compression] is
    log(image + 1) / log(base), and [sharpen] is
    image + 1 * (image - blurred) with the blur taken at sigma 5, failing
    exactly when the blur fails. *)
Theorem general_operations_rank_ok (a : Processing.ndarray pixel)
    (percentile : num * num) (base sigma : num) (filter_type : pyval) :
  length (Processing.shape a) = 2%nat ∨ length (Processing.shape a) = 3%nat →
  blur (Processing.Ndarray a) sigma = gaussian (Processing.Ndarray a) sigma
  ∧ contrast_stretch (Processing.Ndarray a) percentile
    = Processing.rbind (numpy_percentile (Processing.Ndarray a) percentile)
        (λ p, rescale_intensity (Processing.Ndarray a) (p.1, p.2))
  ∧ log_compression (Processing.Ndarray a) base
    = Ok (div_num (numpy_log (add_num a (num_of_int 1)))
            (numpy_log_num base))
  ∧ sharpen (Processing.Ndarray a) filter_type
    = Processing.rbind (gaussian (Processing.Ndarray a) (num_of_int 5))
        (λ image_blur,
           Ok (add_arrays a
                 (mul_num (num_of_int 1) (sub_arrays a image_blur)))).
Proof.
  intros Hrank. pose proof (checks_good_rank a Hrank) as Hs.
  unfold Processing.contrast_stretch, Processing.log_compression,
    Processing.sharpen, Processing.blur.
  rewrite Hs. cbn [Processing._check_image_type Processing.rbind
                     Processing.as_ndarray].
  repeat split.
  - apply rbind_Ok_id.
  - destruct (numpy_percentile _ _) as [p|e]; [|done]. simpl.
    apply rbind_Ok_id.
  - by destruct (gaussian _ _).
Qed.

(** X7: on an array of rank 2 the two grayscale-only operations pass all
    three checks and return what the library function returns. *)
Theorem grayscale_operations_rank2 (a : Processing.ndarray pixel) :
  length (Processing.shape a) = 2%nat →
  hist_eq (Processing.Ndarray a) = equalize_hist (Processing.Ndarray a)
  ∧ reverse_video (Processing.Ndarray a) = invert (Processing.Ndarray a).
Proof.
  intros Hrank.
  unfold Processing.hist_eq, Processing.reverse_video,
    Processing._check_image_shape, Processing._check_grayscale.
  simpl. rewrite Hrank. simpl. split; apply rbind_Ok_id.
Qed.
End FilterChecks.

Lemma operations_reject_bad_rank_witness :
  let lib := λ (_ : Processing.image_arg Z) (_ : Z),
               Raise KeyError : result (Processing.ndarray Z) in
  Processing.hist_eq (λ _, Raise KeyError) (Processing.Ndarray flat_image)
  = Raise ValueError
  ∧ Processing.contrast_stretch (λ _ p, Ok p) (λ im _, lib im 0)
      (Processing.Ndarray flat_image) (10, 90) = Raise ValueError
  ∧ Processing.log_compression id id id (λ a _, a) (λ a _, a)
      (Processing.Ndarray flat_image) 10 = Raise ValueError
  ∧ Processing.reverse_video (λ _, Raise KeyError)
      (Processing.Ndarray flat_image) = Raise ValueError
  ∧ Processing.blur lib (Processing.Ndarray flat_image) 5 = Raise ValueError
  ∧ Processing.sharpen id lib (λ _ a, a) (λ a _, a) (λ a _, a)
      (Processing.Ndarray flat_image) PyNone = Raise ValueError.
Proof.
  intros lib.
  apply (operations_reject_bad_rank (λ _, Raise KeyError)
           (λ _, Raise KeyError) id (λ _ p, Ok p) (λ im _, lib im 0) lib
           id id (λ a _, a) (λ a _, a) (λ _ a, a) (λ a _, a) (λ a _, a)
           flat_image (10, 90) 10 5 PyNone); simpl; lia.
Defined.

Lemma general_operations_rank_ok_witness :
  let gaussian := λ (_ : Processing.image_arg Z) (_ : Z), Ok gray_image in
  let percentile := λ (_ : Processing.image_arg Z) (p : Z * Z), Ok p in
  let rescale := λ (_ : Processing.image_arg Z) (_ : Z * Z), Ok gray_image in
  Processing.blur gaussian (Processing.Ndarray gray_image) 5
  = gaussian (Processing.Ndarray gray_image) 5
  ∧ Processing.contrast_stretch percentile rescale
      (Processing.Ndarray gray_image) (10, 90)
    = Processing.rbind (percentile (Processing.Ndarray gray_image) (10, 90))
        (λ p, rescale (Processing.Ndarray gray_image) (p.1, p.2))
  ∧ Processing.log_compression id id id (λ a _, a) (λ a _, a)
      (Processing.Ndarray gray_image) 10
    = Ok gray_image
  ∧ Processing.sharpen id gaussian (λ _ a, a) (λ a _, a) (λ a _, a)
      (Processing.Ndarray gray_image) PyNone
    = Processing.rbind (gaussian (Processing.Ndarray gray_image) 5)
        (λ image_blur, Ok gray_image).
Proof.
  intros gaussian percentile rescale.
  apply (general_operations_rank_ok id percentile rescale gaussian
           id id (λ a _, a) (λ a _, a) (λ _ a, a) (λ a _, a) (λ a _, a)
           gray_image (10, 90) 10 5 PyNone).
  by left.
Defined.

Lemma grayscale_operations_rank2_witness :
  Processing.hist_eq (λ _, Ok gray_image) (Processing.Ndarray gray_image)
  = Ok gray_image
  ∧ Processing.reverse_video (λ _, Ok gray_image)
      (Processing.Ndarray gray_image)
    = Ok gray_image.
Proof.
  apply (grayscale_operations_rank2 (λ _, Ok gray_image)
           (λ _, Ok gray_image) gray_image).
  reflexivity.
Defined.

(** ** [add_image]: every path *)

Lemma lineage_of_last d image_id db imgs ph pid :
  lineage_of d image_id db imgs ph pid → last ph = Some image_id.
Proof. intros [|]; [done | apply last_snoc]. Qed.

Lemma lineage_of_head d image_id db imgs ph pid :
  lineage_of d image_id db imgs ph pid → ∃ root_id, ph !! 0%nat = Some root_id.
Proof.
  intros [|pv p _ _]; [by eexists|].
  destruct (Image.process_history p); by eexists.
Qed.

Lemma lineage_of_parent d image_id db imgs ph pid :
  lineage_of d image_id db imgs ph pid →
  pid = default (PyStr "root") (dict_get d "parent_id").
Proof. by intros [-> | pv p -> _]. Qed.

(** The first block of [add_image]. *)
Lemma lineage_block_run d image_id db imgs ph pid :
  dict_get d "image_id" = Some (PyStr image_id) →
  lineage_of d image_id db imgs ph pid →
  (if dict_has d "parent_id" then
     parent_id <- lift (getitem d "parent_id") ;;
     parent_image <- find_image parent_id ;;
     process_history <- lift (attr_process_history parent_image) ;;
     image_id <- item_str d "image_id" ;;
     let process_history := (process_history ++ [image_id])%list in
     _add_child image_id parent_id ;;;
     ret (process_history, parent_id)
   else
     image_id <- item_str d "image_id" ;;
     ret ([image_id], PyStr "root")) db
  = (mkDB imgs (users db), Ok (ph, pid)).
Proof.
  intros Hid [Hparent | pv p Hparent Hp].
  - rewrite (dict_has_None _ _ Hparent).
    rewrite (bind_ok _ _ _ _ _ (item_str_ok _ _ _ _ Hid)).
    by destruct db.
  - by apply lineage_block_found.
Qed.

Lemma processing_time_block_run d t z :
  dict_get d "processing_time" = Some t →
  py_int t = Ok z →
  (if dict_has d "processing_time" then
     v <- lift (getitem d "processing_time") ;; lift (py_int v)
   else ret (-1)) = ret z.
Proof.
  intros Ht Hz. rewrite (dict_has_Some _ _ _ Ht), (getitem_Some _ _ _ Ht).
  unfold bind, lift, ret. by rewrite Hz.
Qed.

Lemma description_block_run d :
  (if negb (dict_has d "description") then ret (PyStr "None")
   else lift (getitem d "description"))
  = ret (default (PyStr "None") (dict_get d "description")).
Proof.
  unfold dict_has, getitem. by destruct (dict_get d "description").
Qed.

(** A valid [image_info] whose lineage resolves, for a user that is not
    stored: the user is created and the call raises. *)
Lemma add_image_new_user_run current_time user_id d image_id db imgs ph pid :
  well_formed d →
  dict_get d "image_id" = Some (PyStr image_id) →
  lineage_of d image_id db imgs ph pid →
  find_user_loop (users db) user_id = None_ →
  add_image current_time user_id (PyDict d) db
  = (mkDB imgs (put_user (User.mk user_id ∅) (users db)),
     Raise AttributeError).
Proof.
  intros Hwf Hid Hlin Huser. eval_check Hwf.
  rewrite (bind_ok _ _ _ _ _ (lineage_block_run _ _ _ _ _ _ Hid Hlin)).
  cbn [fst snd].
  destruct (processing_time_block _ Hwf) as (z & ->). rewrite bind_ret.
  apply bind_raise.
  apply (update_user_uploads_absent_raises user_id ph (mkDB imgs (users db)));
    [|done].
  apply lineage_of_last in Hlin. by destruct ph.
Qed.

(** The same for a stored user: the exact store and result. *)
Lemma add_image_stored_user_run current_time user_id d image_id db imgs ph
    pid u root_id t z process :
  well_formed d →
  dict_get d "image_id" = Some (PyStr image_id) →
  dict_get d "processing_time" = Some t →
  py_int t = Ok z →
  dict_get d "process" = Some (PyStr process) →
  lineage_of d image_id db imgs ph pid →
  ph !! 0%nat = Some root_id →
  find_user_loop (users db) user_id = ObjUser u →
  add_image current_time user_id (PyDict d) db
  = (mkDB
       (put_image
          (Image.mk image_id user_id current_time
             (default (PyStr "None") (dict_get d "description")) pid []
             ph z process) imgs)
       (put_user
          (User.set_uploads u (<[root_id := image_id]> (User.uploads u)))
          (users db)),
     Ok (PyDict [("image_id", PyStr image_id); ("user_id", PyStr user_id)])).
Proof.
  intros Hwf Hid Ht Hz Hp Hlin Hroot Huser. eval_check Hwf.
  rewrite (bind_ok _ _ _ _ _ (lineage_block_run _ _ _ _ _ _ Hid Hlin)).
  cbn [fst snd].
  rewrite (processing_time_block_run _ _ _ Ht Hz), bind_ret.
  rewrite (bind_ok _ _ _ _ _
    (update_user_uploads_present user_id ph root_id image_id u
       (mkDB imgs (users db)) Hroot (lineage_of_last _ _ _ _ _ _ Hlin)
       Huser)).
  rewrite description_block_run, bind_ret.
  rewrite (bind_ok _ _ _ _ _ (item_str_ok _ _ _ _ Hid)).
  rewrite (bind_ok _ _ _ _ _ (item_str_ok _ _ _ _ Hp)).
  reflexivity.
Qed.

(** The four ways in which a call of [add_image] can go. *)
Lemma add_image_cases current_time user_id image_info db :
  (∃ e, violation image_info e
        ∧ add_image current_time user_id image_info db = (db, Raise e))
  ∨ (∃ d parent_id,
        image_info = PyDict d ∧ well_formed d
        ∧ dict_get d "parent_id" = Some parent_id
        ∧ find_image_loop (images db) parent_id = None_
        ∧ add_image current_time user_id image_info db
          = (db, Raise AttributeError))
  ∨ (∃ d image_id imgs ph pid,
        image_info = PyDict d ∧ well_formed d
        ∧ dict_get d "image_id" = Some (PyStr image_id)
        ∧ lineage_of d image_id db imgs ph pid
        ∧ find_user_loop (users db) user_id = None_
        ∧ add_image current_time user_id image_info db
          = (mkDB imgs (put_user (User.mk user_id ∅) (users db)),
             Raise AttributeError))
  ∨ (∃ d image_id imgs ph pid u root_id z process,
        image_info = PyDict d ∧ well_formed d
        ∧ dict_get d "image_id" = Some (PyStr image_id)
        ∧ lineage_of d image_id db imgs ph pid
        ∧ ph !! 0%nat = Some root_id
        ∧ find_user_loop (users db) user_id = ObjUser u
        ∧ dict_get d "process" = Some (PyStr process)
        ∧ (∃ t, dict_get d "processing_time" = Some t ∧ py_int t = Ok z)
        ∧ add_image current_time user_id image_info db
          = (mkDB
               (put_image
                  (Image.mk image_id user_id current_time
                     (default (PyStr "None") (dict_get d "description"))
                     pid [] ph z process) imgs)
               (put_user
                  (User.set_uploads u
                     (<[root_id := image_id]> (User.uploads u)))
                  (users db)),
             Ok (PyDict [("image_id", PyStr image_id);
                         ("user_id", PyStr user_id)]))).
Proof.
  destruct (_image_parameter_check_cases image_info db)
    as [(d & -> & Hwf & _) | (e & Hv & Hcheck)]; cycle 1.
  { left. exists e. split; [done|].
    unfold add_image. by rewrite (bind_raise _ _ _ _ _ Hcheck). }
  right.
  destruct (wf_image_id _ Hwf) as (image_id & Hid).
  assert (Hlin :
    (∃ pv, dict_get d "parent_id" = Some pv
           ∧ find_image_loop (images db) pv = None_)
    ∨ ∃ imgs ph pid, lineage_of d image_id db imgs ph pid).
  { destruct (dict_get d "parent_id") as [pv|] eqn:Hparent.
    - destruct (find_image_loop_cases (images db) pv) as [Hp | (p & Hp)].
      + left. eauto.
      + right. eexists _, _, _. by eapply lineage_child.
    - right. eexists _, _, _. by apply lineage_root. }
  destruct Hlin as [(pv & Hparent & Hp) | (imgs & ph & pid & Hlin)].
  { left. exists d, pv. repeat (split; [done|]).
    by eapply add_image_parent_not_found. }
  right.
  destruct (find_user_loop_cases (users db) user_id) as [Hu | (u & Hu)].
  { left. exists d, image_id, imgs, ph, pid. repeat (split; [done|]).
    by eapply add_image_new_user_run. }
  right.
  destruct (wf_processing_time _ Hwf) as (t & Ht & Hint).
  destruct (py_int_ok _ Hint) as (z & Hz).
  destruct (wf_process _ Hwf) as (process & Hp & _).
  destruct (lineage_of_head _ _ _ _ _ _ Hlin) as (root_id & Hroot).
  exists d, image_id, imgs, ph, pid, u, root_id, z, process.
  repeat (split; [done|]). split; [eauto|].
  by eapply add_image_stored_user_run.
Qed.

(** What a normal return of [add_image] tells. *)
Lemma add_image_ok_inv current_time user_id image_info db db' j :
  add_image current_time user_id image_info db = (db', Ok j) →
  ∃ d image_id imgs ph pid u root_id z process,
    image_info = PyDict d ∧ well_formed d
    ∧ dict_get d "image_id" = Some (PyStr image_id)
    ∧ lineage_of d image_id db imgs ph pid
    ∧ ph !! 0%nat = Some root_id
    ∧ find_user_loop (users db) user_id = ObjUser u
    ∧ dict_get d "process" = Some (PyStr process)
    ∧ (∃ t, dict_get d "processing_time" = Some t ∧ py_int t = Ok z)
    ∧ db' = mkDB
              (put_image
                 (Image.mk image_id user_id current_time
                    (default (PyStr "None") (dict_get d "description"))
                    pid [] ph z process) imgs)
              (put_user
                 (User.set_uploads u
                    (<[root_id := image_id]> (User.uploads u)))
                 (users db))
    ∧ j = PyDict [("image_id", PyStr image_id); ("user_id", PyStr user_id)].
Proof.
  intros Hrun.
  destruct (add_image_cases current_time user_id image_info db)
    as [(e0 & Hv & H) | [(d & pv & _ & _ & _ & _ & H)
       | [(d & i & imgs & ph & pid & _ & _ & _ & _ & _ & H)
       | (d & i & imgs & ph & pid & u & r & z & p
          & Hd & Hwf & Hid & Hlin & Hroot & Hu & Hp & Ht & H)]]];
    rewrite H in Hrun; try discriminate.
  injection Hrun as <- <-.
  by exists d, i, imgs, ph, pid, u, r, z, p.
Qed.

(** X1: the nearby statement of C1 that the code satisfies: whenever
    [add_image] of a well-formed [image_info] without [parent_id] returns,
    the user was stored already, the reduced form is returned, the
    identifier finds a record with the one-element history and the parent
    "root", and the user's upload mapping sends the identifier to
    itself. *)
Lemma add_image_root_present_user (current_time : Z) (user_id : string)
    (d : list (string * pyval)) (image_id : string) (db db' : DB)
    (j : pyval) :
  well_formed d →
  dict_get d "image_id" = Some (PyStr image_id) →
  dict_get d "parent_id" = None →
  add_image current_time user_id (PyDict d) db = (db', Ok j) →
  j = PyDict [("image_id", PyStr image_id); ("user_id", PyStr user_id)]
  ∧ (∃ u, find_user_loop (users db) user_id = ObjUser u)
  ∧ ∃ i,
      find_image_loop (images db') (PyStr image_id) = ObjImage i
      ∧ Image.process_history i = [image_id]
      ∧ Image.parent_id i = PyStr "root"
      ∧ ∃ u', find_user_loop (users db') user_id = ObjUser u'
              ∧ User.uploads u' !! image_id = Some image_id.
Proof.
  intros Hwf Hid Hparent Hrun.
  destruct (add_image_ok_inv _ _ _ _ _ _ Hrun)
    as (d0 & iid & imgs & ph & pid & u & root_id & z & process
        & [= <-] & _ & Hid0 & Hlin & Hroot & Hu & _ & _ & -> & ->).
  rewrite Hid in Hid0. injection Hid0 as <-.
  destruct Hlin as [_ | pv p Hsome _]; [|congruence].
  injection Hroot as <-. cbn [images users].
  split; [done|]. split; [eauto|].
  eexists. split.
  { apply (find_image_loop_put_eq (Image.mk image_id _ _ _ _ _ _ _ _)). }
  split; [done|]. split; [done|].
  eexists. split.
  - pose proof (find_user_loop_found _ _ _ Hu) as Hu'. subst user_id.
    apply (find_user_loop_put_eq (User.set_uploads u _)).
  - apply lookup_insert_eq.
Qed.

(** X2: the nearby statement of C2 that the code satisfies: whenever
    [add_image] under a stored parent returns, and the new identifier is
    not the parent's own, the parent is stored with the new child appended
    and its history untouched, and the new record carries the parent's
    history extended by the new identifier. *)
Lemma add_image_child_present_user (current_time : Z) (user_id : string)
    (d : list (string * pyval)) (image_id : string) (parent_id : pyval)
    (p : Image.t) (db db' : DB) (j : pyval) :
  well_formed d →
  dict_get d "image_id" = Some (PyStr image_id) →
  dict_get d "parent_id" = Some parent_id →
  find_image_loop (images db) parent_id = ObjImage p →
  image_id ≠ Image.image_id p →
  add_image current_time user_id (PyDict d) db = (db', Ok j) →
  j = PyDict [("image_id", PyStr image_id); ("user_id", PyStr user_id)]
  ∧ ∃ p' i,
      find_image_loop (images db') parent_id = ObjImage p'
      ∧ Image.child_ids p' = (Image.child_ids p ++ [image_id])%list
      ∧ Image.process_history p' = Image.process_history p
      ∧ find_image_loop (images db') (PyStr image_id) = ObjImage i
      ∧ Image.process_history i
        = (Image.process_history p ++ [image_id])%list
      ∧ Image.parent_id i = parent_id.
Proof.
  intros Hwf Hid Hparent Hp Hne Hrun.
  destruct (add_image_ok_inv _ _ _ _ _ _ Hrun)
    as (d0 & iid & imgs & ph & pid & u & root_id & z & process
        & [= <-] & _ & Hid0 & Hlin & Hroot & Hu & _ & _ & -> & ->).
  rewrite Hid in Hid0. injection Hid0 as <-.
  destruct Hlin as [Hnone | pv p0 Hsome Hp0]; [congruence|].
  rewrite Hparent in Hsome. injection Hsome as <-.
  rewrite Hp in Hp0. injection Hp0 as <-.
  destruct (find_image_loop_found _ _ _ Hp) as (-> & _).
  cbn [images users]. split; [done|].
  eexists _, _. split.
  { rewrite find_image_loop_put_ne by (cbn; congruence).
    apply (find_image_loop_put_eq (Image.set_child_ids p _)). }
  split; [done|]. split; [done|]. split.
  - apply (find_image_loop_put_eq (Image.mk image_id _ _ _ _ _ _ _ _)).
  - done.
Qed.

(** X9: [add_image] can return normally only when [image_info] is a
    well-formed mapping, the user is stored already, and the mapping has
    either no [parent_id] or one that names a stored image; in particular
    it never returns for a user that is not stored yet. *)
Theorem add_image_returns_only_if (current_time : Z) (user_id : string)
    (image_info : pyval) (db db' : DB) (j : pyval) :
  add_image current_time user_id image_info db = (db', Ok j) →
  ∃ d, image_info = PyDict d ∧ well_formed d
       ∧ (∃ u, find_user_loop (users db) user_id = ObjUser u)
       ∧ (dict_get d "parent_id" = None
          ∨ ∃ parent_id p,
              dict_get d "parent_id" = Some parent_id
              ∧ find_image_loop (images db) parent_id = ObjImage p).
Proof.
  intros Hrun.
  destruct (add_image_ok_inv _ _ _ _ _ _ Hrun)
    as (d & iid & imgs & ph & pid & u & root_id & z & process
        & -> & Hwf & _ & Hlin & _ & Hu & _).
  exists d. split; [done|]. split; [done|]. split; [eauto|].
  destruct Hlin; eauto.
Qed.

(** X10: what a successful [add_image] leaves behind.  The identifier of
    the mapping now finds a record owned by the caller, without children,
    with the given process, the integer value of the given processing time
    and the given parent or "root", described by the given description when
    that is a string and by "None" when there is none, and whose history
    ends with the identifier; and the caller's upload mapping sends the
    first entry of that history to the identifier. *)
Theorem add_image_success_record (current_time : Z) (user_id : string)
    (image_info : pyval) (db db' : DB) (j : pyval) :
  add_image current_time user_id image_info db = (db', Ok j) →
  ∃ d image_id i u' root_id,
    image_info = PyDict d
    ∧ dict_get d "image_id" = Some (PyStr image_id)
    ∧ j = PyDict [("image_id", PyStr image_id); ("user_id", PyStr user_id)]
    ∧ find_image_loop (images db') (PyStr image_id) = ObjImage i
    ∧ Image.user_id i = user_id
    ∧ Image.child_ids i = []
    ∧ (∀ s, default (PyStr "None") (dict_get d "description") = PyStr s →
            Image.description i = PyStr s)
    ∧ dict_get d "process" = Some (PyStr (Image.process i))
    ∧ (∃ t, dict_get d "processing_time" = Some t
            ∧ py_int t = Ok (Image.processing_time i))
    ∧ Image.parent_id i = default (PyStr "root") (dict_get d "parent_id")
    ∧ last (Image.process_history i) = Some image_id
    ∧ Image.process_history i !! 0%nat = Some root_id
    ∧ find_user_loop (users db') user_id = ObjUser u'
    ∧ User.uploads u' !! root_id = Some image_id.
Proof.
  intros Hrun.
  destruct (add_image_ok_inv _ _ _ _ _ _ Hrun)
    as (d & image_id & imgs & ph & pid & u & root_id & z & process
        & -> & Hwf & Hid & Hlin & Hroot & Hu & Hp & Ht & -> & ->).
  eexists d, image_id, _, _, root_id. cbn [images users].
  split; [done|]. split; [done|]. split; [done|].
  split.
  { apply (find_image_loop_put_eq (Image.mk image_id _ _ _ _ _ _ _ _)). }
  cbn [Image.user_id Image.child_ids Image.description
       Image.process Image.process_history Image.processing_time
       Image.parent_id].
  repeat (split; [done|]).
  split; [by eapply lineage_of_parent|].
  split; [by eapply lineage_of_last|]. split; [done|]. split.
  - pose proof (find_user_loop_found _ _ _ Hu) as Hid'. subst user_id.
    apply (find_user_loop_put_eq (User.set_uploads u _)).
  - apply lookup_insert_eq.
Qed.

(** ** The collections under [save] and [delete] *)

Lemma put_image_elem i l x : x ∈ put_image i l → x = i ∨ x ∈ l.
Proof.
  induction l as [|y l IH]; simpl.
  - intros ->%list_elem_of_singleton. by left.
  - destruct (decide _).
    + intros [-> | Hx]%elem_of_cons; [by left | right; by right].
    + intros [-> | Hx]%elem_of_cons; [right; left|].
      destruct (IH Hx); [by left | right; by right].
Qed.

Lemma put_image_ids_elem i l k :
  k ∈ Image.image_id <$> put_image i l →
  k = Image.image_id i ∨ k ∈ Image.image_id <$> l.
Proof.
  intros (x & -> & Hx)%list_elem_of_fmap.
  destruct (put_image_elem _ _ _ Hx) as [-> | Hin]; [by left|].
  right. apply list_elem_of_fmap. eauto.
Qed.

Lemma put_image_NoDup i l :
  NoDup (Image.image_id <$> l) → NoDup (Image.image_id <$> put_image i l).
Proof.
  induction l as [|y l IH]; simpl.
  - intros _. apply NoDup_singleton.
  - rewrite !NoDup_cons. intros [Hy Hl].
    destruct (decide (Image.image_id y = Image.image_id i)) as [Heq|Hne].
    + rewrite fmap_cons, NoDup_cons, <- Heq. done.
    + rewrite fmap_cons, NoDup_cons. split; [|auto].
      intros [Hk | Hk]%put_image_ids_elem; done.
Qed.

Lemma put_user_elem u l x : x ∈ put_user u l → x = u ∨ x ∈ l.
Proof.
  induction l as [|y l IH]; simpl.
  - intros ->%list_elem_of_singleton. by left.
  - destruct (decide _).
    + intros [-> | Hx]%elem_of_cons; [by left | right; by right].
    + intros [-> | Hx]%elem_of_cons; [right; left|].
      destruct (IH Hx); [by left | right; by right].
Qed.

Lemma put_user_NoDup u l :
  NoDup (User.user_id <$> l) → NoDup (User.user_id <$> put_user u l).
Proof.
  induction l as [|y l IH]; simpl.
  - intros _. apply NoDup_singleton.
  - rewrite !NoDup_cons. intros [Hy Hl].
    destruct (decide (User.user_id y = User.user_id u)) as [Heq|Hne].
    + rewrite fmap_cons, NoDup_cons, <- Heq. done.
    + rewrite fmap_cons, NoDup_cons. split; [|auto].
      intros (x & Hx & Hin)%list_elem_of_fmap.
      destruct (put_user_elem _ _ _ Hin) as [-> | Hin']; [done|].
      apply Hy, list_elem_of_fmap. eauto.
Qed.

Lemma filter_ids_NoDup (P : Image.t → Prop) `{!∀ x, Decision (P x)} l :
  NoDup (Image.image_id <$> l) → NoDup (Image.image_id <$> filter P l).
Proof.
  intros Hl. eapply sublist_NoDup; [exact Hl|].
  apply fmap_sublist, sublist_filter.
Qed.

Lemma find_user_loop_put_ne u all user_id :
  user_id ≠ User.user_id u →
  find_user_loop (put_user u all) user_id = find_user_loop all user_id.
Proof.
  intros Hne. induction all as [|x all IH]; simpl.
  - by rewrite bool_decide_eq_false_2.
  - destruct (decide (User.user_id x = User.user_id u)) as [Heq|Hx]; simpl.
    + rewrite Heq. by rewrite !bool_decide_eq_false_2.
    + by rewrite IH.
Qed.

Lemma find_image_loop_filter_ne all image_id other :
  other ≠ image_id →
  find_image_loop
    (filter (λ x, str_eq (Image.image_id x) image_id = false) all) other
  = find_image_loop all other.
Proof.
  intros Hne. induction all as [|x all IH]; [done|].
  rewrite filter_cons. simpl.
  destruct (decide (str_eq (Image.image_id x) image_id = false)) as [Hk|Hd].
  - simpl. by rewrite IH.
  - rewrite IH. apply not_false_is_true, str_eq_true in Hd.
    destruct (str_eq (Image.image_id x) other) eqn:E; [|done].
    apply str_eq_true in E. congruence.
Qed.

Lemma filter_all {A} (P : A → Prop) `{!∀ x, Decision (P x)} (l : list A) :
  (∀ x, x ∈ l → P x) → filter P l = l.
Proof.
  induction l as [|x l IH]; [done|]. intros Hall.
  rewrite filter_cons_True by (apply Hall; left).
  rewrite IH; [done|]. intros y Hy. apply Hall. by right.
Qed.

(** ** Every path of [remove_image] and [update_description] *)

(** [remove_image] deletes exactly the documents whose identifier compares
    equal to the argument, and then raises in every case. *)
Lemma remove_image_run image_id db :
  remove_image image_id db
  = (mkDB (filter (λ x, str_eq (Image.image_id x) image_id = false)
             (images db)) (users db),
     Raise AttributeError).
Proof.
  destruct (find_image_loop_cases (images db) image_id) as [Hn | (i & Hi)].
  - pose proof (proj1 (find_image_loop_absent _ _) Hn) as Habs.
    rewrite filter_all by done.
    unfold remove_image.
    rewrite (bind_ok _ _ _ _ _ (Image_objects_all_eq db)).
    rewrite (bind_ok _ _ _ _ _
               (remove_image_loop_no_match _ _ false db Habs)).
    by destruct db.
  - destruct (find_image_loop_found _ _ _ Hi) as (-> & Hin).
    unfold remove_image.
    rewrite (bind_ok _ _ _ _ _ (Image_objects_all_eq db)).
    rewrite (bind_ok _ _ _ _ _ (remove_image_loop_str _ _ false db)).
    rewrite (existsb_elem i) by done.
    rewrite image_to_json_not_image. f_equal. f_equal.
    apply list_filter_iff. intros x. simpl.
    rewrite bool_decide_eq_false. done.
Qed.

Lemma update_description_loop_run all image_id description db :
  update_description_loop all image_id description db
  = match find_image_loop all image_id with
    | ObjImage i => save (ObjImage (Image.set_description i description)) db
    | _ => (db, Ok None_)
    end.
Proof.
  induction all as [|x all IH]; simpl; [done|].
  by destruct (str_eq _ _).
Qed.

(** ** Invariants *)

Lemma history_put_image i l :
  last (Image.process_history i) = Some (Image.image_id i) →
  (∀ x, x ∈ l → last (Image.process_history x) = Some (Image.image_id x)) →
  ∀ x, x ∈ put_image i l →
       last (Image.process_history x) = Some (Image.image_id x).
Proof.
  intros Hi Hl x [-> | Hx]%put_image_elem; auto.
Qed.

Lemma lineage_of_invariants d image_id db imgs ph pid :
  lineage_of d image_id db imgs ph pid →
  unique_ids db → history_ends_with_id db →
  NoDup (Image.image_id <$> imgs)
  ∧ ∀ x, x ∈ imgs → last (Image.process_history x) = Some (Image.image_id x).
Proof.
  intros [Hparent | pv p Hparent Hp] [Hu _] Hh; [split; [done | apply Hh]|].
  split; [by apply put_image_NoDup|].
  apply history_put_image; [|done].
  destruct (find_image_loop_found _ _ _ Hp) as (_ & Hin).
  simpl. by apply Hh.
Qed.

(** X11: [add_image] keeps the store well formed, however the call ends:
    identifiers stay unique in both collections and the history of every
    stored image still ends with the image's own identifier. *)
Theorem add_image_keeps_invariants (current_time : Z) (user_id : string)
    (image_info : pyval) (db : DB) :
  unique_ids db → history_ends_with_id db →
  unique_ids (add_image current_time user_id image_info db).1
  ∧ history_ends_with_id (add_image current_time user_id image_info db).1.
Proof.
  intros Hu Hh.
  destruct (add_image_cases current_time user_id image_info db)
    as [(e0 & Hv & H) | [(d & pv & _ & _ & _ & _ & H)
       | [(d & i & imgs & ph & pid & _ & _ & _ & Hlin & _ & H)
       | (d & i & imgs & ph & pid & u & r & z & p
          & _ & _ & _ & Hlin & _ & _ & _ & _ & H)]]];
    rewrite H; cbn [fst]; try done.
  - destruct (lineage_of_invariants _ _ _ _ _ _ Hlin Hu Hh) as [Hnd Hhist].
    split; [|done]. split; [done|]. apply put_user_NoDup, Hu.
  - destruct (lineage_of_invariants _ _ _ _ _ _ Hlin Hu Hh) as [Hnd Hhist].
    split.
    + split; [by apply put_image_NoDup | apply put_user_NoDup, Hu].
    + unfold history_ends_with_id. cbn [images].
      apply history_put_image; [|done]. by eapply lineage_of_last.
Qed.

Lemma store_a_invariants : unique_ids store_a ∧ history_ends_with_id store_a.
Proof.
  split.
  - split; apply (bool_decide_unpack _); by vm_compute.
  - intros i ->%list_elem_of_singleton. reflexivity.
Qed.

(** X12: the other methods that write to the store keep it well formed
    too: [add_user], [update_user_uploads], [update_description],
    [remove_image] and [_add_child] leave identifiers unique and every
    history ending with its image's identifier, whether they return or
    raise. *)
Theorem writers_keep_invariants (user_id : string)
    (process_history : list string) (image_id description : pyval)
    (child_id : string) (db : DB) :
  store_ok db →
  store_ok (add_user user_id db).1
  ∧ store_ok (update_user_uploads user_id process_history db).1
  ∧ store_ok (update_description image_id description db).1
  ∧ store_ok (remove_image image_id db).1
  ∧ store_ok (_add_child child_id image_id db).1.
Proof.
  intros [Hu Hh].
  assert (Hput_user : ∀ u,
    unique_ids (mkDB (images db) (put_user u (users db)))
    ∧ history_ends_with_id (mkDB (images db) (put_user u (users db)))).
  { intros u. split; [|done]. split; [apply Hu | apply put_user_NoDup, Hu]. }
  unfold store_ok. split; [|split; [|split; [|split]]].
  - destruct (find_user_loop_cases (users db) user_id) as [Hn | (u & Hf)].
    + rewrite (add_user_absent _ _ Hn). apply Hput_user.
    + by rewrite (add_user_present _ _ _ Hf).
  - destruct process_history as [|root_id rest].
    { by rewrite update_user_uploads_empty_history. }
    destruct (find_user_loop_cases (users db) user_id) as [Hn | (u & Hf)].
    + rewrite (update_user_uploads_absent_raises user_id (root_id :: rest)
                 db ltac:(done) Hn).
      apply Hput_user.
    + destruct (last (root_id :: rest)) as [recent_id|] eqn:Hlast; cycle 1.
      { by apply last_None in Hlast. }
      rewrite (update_user_uploads_present user_id (root_id :: rest)
                 root_id recent_id u db eq_refl Hlast Hf).
      apply Hput_user.
  - unfold update_description.
    rewrite (bind_ok _ _ _ _ _ (Image_objects_all_eq db)).
    rewrite update_description_loop_run.
    destruct (find_image_loop_cases (images db) image_id)
      as [-> | (i & Hi)]; [done|].
    rewrite Hi. cbn [save fst].
    destruct (find_image_loop_found _ _ _ Hi) as (_ & Hin).
    split.
    + split; [apply put_image_NoDup, Hu | apply Hu].
    + unfold history_ends_with_id. cbn [images].
      apply history_put_image; [simpl; by apply Hh | done].
  - rewrite remove_image_run. cbn [fst]. split.
    + split; [apply filter_ids_NoDup, Hu | apply Hu].
    + intros x [_ Hx]%list_elem_of_filter. by apply Hh.
  - destruct (find_image_loop_cases (images db) image_id)
      as [Hn | (p & Hp)].
    + by rewrite (_add_child_not_found _ _ _ Hn).
    + rewrite (_add_child_found _ _ _ _ Hp). cbn [fst].
      destruct (find_image_loop_found _ _ _ Hp) as (_ & Hin).
      split.
      * split; [apply put_image_NoDup, Hu | apply Hu].
      * unfold history_ends_with_id. cbn [images].
        apply history_put_image; [simpl; by apply Hh | done].
Qed.

Lemma writers_keep_invariants_witness :
  store_ok (add_user "u1" store_a).1
  ∧ store_ok (update_user_uploads "u1" ["a"] store_a).1
  ∧ store_ok (update_description (PyStr "a") (PyStr "new") store_a).1
  ∧ store_ok (remove_image (PyStr "a") store_a).1
  ∧ store_ok (_add_child "c" (PyStr "a") store_a).1.
Proof.
  apply (writers_keep_invariants "u1" ["a"] (PyStr "a") (PyStr "new") "c"
           store_a).
  apply store_a_invariants.
Defined.

(** ** Users *)

(** X13: after an [add_user] that returned, a second [add_user] with the
    same identifier raises [ValueError] and leaves the store as the first
    call left it. *)
Theorem add_user_twice (user_id : string) (db db1 : DB) (j : pyval) :
  add_user user_id db = (db1, Ok j) →
  add_user user_id db1 = (db1, Raise ValueError).
Proof.
  intros Hrun.
  destruct (find_user_loop_cases (users db) user_id) as [Hn | (u & Hf)].
  - rewrite (add_user_absent _ _ Hn) in Hrun. injection Hrun as <- _.
    eapply add_user_present. cbn [users].
    apply (find_user_loop_put_eq (User.mk user_id ∅)).
  - by rewrite (add_user_present _ _ _ Hf) in Hrun.
Qed.

Lemma add_user_twice_witness :
  add_user "u1" (mkDB [parent_a] [User.mk "u0" {["a" := "a"]};
                                   User.mk "u1" ∅])
  = (mkDB [parent_a] [User.mk "u0" {["a" := "a"]}; User.mk "u1" ∅],
     Raise ValueError).
Proof.
  apply (add_user_twice "u1" store_a _ (PyDict [("user_id", PyStr "u1")])).
  reflexivity.
Defined.

(** X14: whenever [add_user] returns, the identifier was not stored
    before and the JSON form of the user is returned; afterwards the
    identifier finds a user with an empty upload mapping, every other
    identifier finds what it found before, and the images are untouched. *)
Theorem add_user_then_find (user_id : string) (db db' : DB) (j : pyval) :
  add_user user_id db = (db', Ok j) →
  find_user_loop (users db) user_id = None_
  ∧ j = PyDict [("user_id", PyStr user_id)]
  ∧ images db' = images db
  ∧ find_user_loop (users db') user_id = ObjUser (User.mk user_id ∅)
  ∧ ∀ other, other ≠ user_id →
      find_user_loop (users db') other = find_user_loop (users db) other.
Proof.
  intros Hrun.
  destruct (find_user_loop_cases (users db) user_id) as [Hn | (u & Hf)];
    cycle 1.
  { by rewrite (add_user_present _ _ _ Hf) in Hrun. }
  rewrite (add_user_absent _ _ Hn) in Hrun. injection Hrun as <- <-.
  cbn [images users]. split; [done|]. split; [done|]. split; [done|]. split.
  - apply (find_user_loop_put_eq (User.mk user_id ∅)).
  - intros other Hne. by apply find_user_loop_put_ne.
Qed.

Lemma add_user_then_find_witness :
  let db' := mkDB [parent_a] [User.mk "u0" {["a" := "a"]}; User.mk "u1" ∅] in
  find_user_loop (users store_a) "u1" = None_
  ∧ PyDict [("user_id", PyStr "u1")] = PyDict [("user_id", PyStr "u1")]
  ∧ images db' = images store_a
  ∧ find_user_loop (users db') "u1" = ObjUser (User.mk "u1" ∅)
  ∧ ∀ other, other ≠ "u1" →
      find_user_loop (users db') other = find_user_loop (users store_a) other.
Proof.
  apply (add_user_then_find "u1" store_a _ (PyDict [("user_id", PyStr "u1")])).
  reflexivity.
Defined.

(** X15: whenever [update_user_uploads] returns, the history was not
    empty, the user was stored already, and the call changed one entry of
    that user's upload mapping, sending the first identifier of the history
    to the last, and nothing else: the other keys of the mapping, the other
    users and the images stay as they were. *)
Theorem update_user_uploads_frame (user_id : string)
    (process_history : list string) (db db' : DB) (j : pyval) :
  update_user_uploads user_id process_history db = (db', Ok j) →
  ∃ root_id recent_id u u',
    process_history !! 0%nat = Some root_id
    ∧ last process_history = Some recent_id
    ∧ find_user_loop (users db) user_id = ObjUser u
    ∧ j = PyDict [("user_id", PyStr user_id)]
    ∧ images db' = images db
    ∧ find_user_loop (users db') user_id = ObjUser u'
    ∧ User.uploads u' = <[root_id := recent_id]> (User.uploads u)
    ∧ (∀ key, key ≠ root_id → User.uploads u' !! key = User.uploads u !! key)
    ∧ ∀ other, other ≠ user_id →
        find_user_loop (users db') other = find_user_loop (users db) other.
Proof.
  intros Hrun.
  destruct process_history as [|root_id rest].
  { by rewrite update_user_uploads_empty_history in Hrun. }
  destruct (last (root_id :: rest)) as [recent_id|] eqn:Hlast; cycle 1.
  { by apply last_None in Hlast. }
  destruct (find_user_loop_cases (users db) user_id) as [Hn | (u & Hu)].
  { by rewrite (update_user_uploads_absent_raises user_id (root_id :: rest)
                  db ltac:(done) Hn) in Hrun. }
  rewrite (update_user_uploads_present user_id (root_id :: rest) root_id
             recent_id u db eq_refl Hlast Hu) in Hrun.
  injection Hrun as <- <-.
  pose proof (find_user_loop_found _ _ _ Hu) as Hid.
  exists root_id, recent_id, u, (User.set_uploads u
    (<[root_id := recent_id]> (User.uploads u))).
  cbn [images users]. split; [done|]. split; [done|]. split; [done|].
  split; [by rewrite Hid|]. split; [done|]. split.
  { subst user_id. apply (find_user_loop_put_eq (User.set_uploads u _)). }
  split; [done|]. split.
  - intros key Hne. simpl. by rewrite lookup_insert_ne.
  - intros other Hne. apply find_user_loop_put_ne. simpl. congruence.
Qed.

Lemma update_user_uploads_frame_witness :
  let db' := mkDB [parent_a] [User.mk "u0" (<["a" := "c"]> {["a" := "a"]})] in
  ∃ root_id recent_id u u',
    ["a"; "b"; "c"] !! 0%nat = Some root_id
    ∧ last ["a"; "b"; "c"] = Some recent_id
    ∧ find_user_loop (users store_a) "u0" = ObjUser u
    ∧ PyDict [("user_id", PyStr "u0")] = PyDict [("user_id", PyStr "u0")]
    ∧ images db' = images store_a
    ∧ find_user_loop (users db') "u0" = ObjUser u'
    ∧ User.uploads u' = <[root_id := recent_id]> (User.uploads u)
    ∧ (∀ key, key ≠ root_id → User.uploads u' !! key = User.uploads u !! key)
    ∧ ∀ other, other ≠ "u0" →
        find_user_loop (users db') other = find_user_loop (users store_a) other.
Proof.
  apply (update_user_uploads_frame "u0" ["a"; "b"; "c"] store_a _
           (PyDict [("user_id", PyStr "u0")])).
  reflexivity.
Defined.

(** ** [update_description] *)

(** X16: whenever [update_description] of a stored image with a string
    as description returns, it returns the updated document; afterwards the
    identifier finds the image with the new description and every other
    field as before, every other identifier finds what it found before, and
    the users are untouched. *)
Theorem update_description_found (image_id : pyval) (description : string)
    (i : Image.t) (db db' : DB) (o : pyobj) :
  find_image_loop (images db) image_id = ObjImage i →
  update_description image_id (PyStr description) db = (db', Ok o) →
  let i' := Image.mk (Image.image_id i) (Image.user_id i) (Image.timestamp i)
              (PyStr description) (Image.parent_id i) (Image.child_ids i)
              (Image.process_history i) (Image.processing_time i)
              (Image.process i) in
  o = ObjImage i'
  ∧ users db' = users db
  ∧ find_image_loop (images db') image_id = ObjImage i'
  ∧ ∀ other, other ≠ image_id →
      find_image_loop (images db') other = find_image_loop (images db) other.
Proof.
  intros Hi Hrun i'. destruct (find_image_loop_found _ _ _ Hi) as (-> & _).
  unfold update_description in Hrun.
  rewrite (bind_ok _ _ _ _ _ (Image_objects_all_eq db)) in Hrun.
  rewrite update_description_loop_run, Hi in Hrun.
  injection Hrun as <- <-.
  cbn [images users]. split; [done|]. split; [done|]. split.
  { apply (find_image_loop_put_eq (Image.set_description i _)). }
  intros other Hne. by apply find_image_loop_put_ne.
Qed.

Lemma update_description_found_witness :
  let i' := Image.mk "a" "u0" 0 (PyStr "scan") (PyStr "root") [] ["a"] 5
              "upload" in
  let db' := mkDB [i'] [User.mk "u0" {["a" := "a"]}] in
  ObjImage i' = ObjImage i'
  ∧ users db' = users store_a
  ∧ find_image_loop (images db') (PyStr "a") = ObjImage i'
  ∧ ∀ other, other ≠ PyStr "a" →
      find_image_loop (images db') other
      = find_image_loop (images store_a) other.
Proof.
  apply (update_description_found (PyStr "a") "scan" parent_a store_a);
    reflexivity.
Defined.

(** X17: for an identifier that matches no stored image
    [update_description] returns [None] and leaves the store as it was. *)
Theorem update_description_absent (image_id description : pyval) (db : DB) :
  find_image_loop (images db) image_id = None_ →
  update_description image_id description db = (db, Ok None_).
Proof.
  intros Hn. unfold update_description.
  rewrite (bind_ok _ _ _ _ _ (Image_objects_all_eq db)).
  by rewrite update_description_loop_run, Hn.
Qed.

Lemma update_description_absent_witness :
  update_description (PyInt 7) (PyStr "scan") store_a = (store_a, Ok None_).
Proof. by apply update_description_absent. Defined.

(** ** Every path of the two family lookups *)

Lemma find_image_parent_run image_id db :
  find_image_parent image_id db
  = (db,
     match find_image_loop (images db) image_id with
     | ObjImage i =>
         match Image.parent_id i with
         | PyNone => Ok None_
         | parent_id => Ok (find_image_loop (images db) parent_id)
         end
     | _ => Raise AttributeError
     end).
Proof.
  unfold find_image_parent.
  rewrite (bind_ok _ _ _ _ _ (find_image_eq image_id db)).
  destruct (find_image_loop_cases (images db) image_id) as [-> | (i & ->)];
    [done|].
  cbn [attr_parent_id]. rewrite bind_lift_ok.
  by destruct (Image.parent_id i).
Qed.

Lemma find_image_child_run image_id db :
  find_image_child image_id db
  = (db,
     match find_image_loop (images db) image_id with
     | ObjImage i => Ok (Image.child_ids i)
     | _ => Raise AttributeError
     end).
Proof.
  destruct (find_image_loop_cases (images db) image_id) as [Hn | (i & Hi)].
  - rewrite Hn. unfold find_image_child.
    rewrite (bind_ok _ _ _ _ _ (find_image_eq image_id db)), Hn.
    reflexivity.
  - rewrite Hi. unfold find_image_child.
    rewrite (bind_ok _ _ _ _ _ (find_image_eq image_id db)), Hi.
    cbn [attr_child_ids]. rewrite bind_lift_ok.
    by destruct (Image.child_ids i).
Qed.

(** ** What [remove_image] leaves in place *)

(** X18: [remove_image] touches only the documents with the given
    identifier: the users are as before, and every other identifier finds
    what it found before. *)
Theorem remove_image_frame (image_id other : pyval) (db : DB) :
  other ≠ image_id →
  users (remove_image image_id db).1 = users db
  ∧ find_image_loop (images (remove_image image_id db).1) other
    = find_image_loop (images db) other.
Proof.
  intros Hne. rewrite remove_image_run. cbn [fst images users].
  split; [done|]. by apply find_image_loop_filter_ne.
Qed.

Lemma remove_image_frame_witness :
  users (remove_image (PyStr "b") store_ab).1 = users store_ab
  ∧ find_image_loop (images (remove_image (PyStr "b") store_ab).1) (PyStr "a")
    = find_image_loop (images store_ab) (PyStr "a").
Proof. apply (remove_image_frame (PyStr "b") (PyStr "a") store_ab). done. Defined.

(** X19: the danger announced in the source: removing a child does not
    repair its parent.  After [remove_image] of a child listed by a stored
    image [p], the child is gone, yet [find_image_child] of [p] still
    returns the list that names it. *)
Theorem remove_image_keeps_parent_link (child_id : string) (p : Image.t)
    (db : DB) :
  find_image_loop (images db) (PyStr (Image.image_id p)) = ObjImage p →
  child_id ∈ Image.child_ids p →
  child_id ≠ Image.image_id p →
  let db' := (remove_image (PyStr child_id) db).1 in
  find_image_loop (images db') (PyStr child_id) = None_
  ∧ ∃ children,
      find_image_child (PyStr (Image.image_id p)) db' = (db', Ok children)
      ∧ child_id ∈ children.
Proof.
  intros Hp Hchild Hne db'. subst db'.
  rewrite remove_image_run. cbn [fst]. split.
  - cbn [images]. apply find_image_loop_absent.
    by intros x [Hx _]%list_elem_of_filter.
  - exists (Image.child_ids p). split; [|done].
    rewrite find_image_child_run. cbn [images].
    rewrite find_image_loop_filter_ne by congruence. by rewrite Hp.
Qed.

Lemma remove_image_keeps_parent_link_witness :
  let db' := (remove_image (PyStr "b") store_ab).1 in
  find_image_loop (images db') (PyStr "b") = None_
  ∧ ∃ children,
      find_image_child (PyStr "a") db' = (db', Ok children)
      ∧ "b" ∈ children.
Proof.
  apply (remove_image_keeps_parent_link "b"
           (Image.set_child_ids parent_a ["b"]) store_ab).
  - reflexivity.
  - simpl. left.
  - discriminate.
Defined.

(** ** Lookups *)

(** X20: the lookups and the validation never write: [find_image],
    [find_user], [find_image_parent], [find_image_child] and
    [_image_parameter_check] leave the store exactly as it was, whether
    they return or raise. *)
Theorem lookups_read_only (image_id : pyval) (user_id : string)
    (image_info : pyval) (db : DB) :
  (find_image image_id db).1 = db
  ∧ (find_user user_id db).1 = db
  ∧ (find_image_parent image_id db).1 = db
  ∧ (find_image_child image_id db).1 = db
  ∧ (_image_parameter_check image_info db).1 = db.
Proof.
  rewrite find_image_parent_run, find_image_child_run.
  repeat (split; [done|]).
  by destruct (_image_parameter_check_cases image_info db)
    as [(d & _ & _ & ->) | (e & _ & ->)].
Qed.

(** X21: a lookup can only fail with [AttributeError], and only
    [find_image_parent] and [find_image_child] can fail, exactly when the
    identifier matches no stored image; [find_image] and [find_user] return
    [None] instead. *)
Theorem lookups_fail_iff (image_id : pyval) (user_id : string) (db : DB) :
  (∃ o, (find_image image_id db).2 = Ok o)
  ∧ (∃ o, (find_user user_id db).2 = Ok o)
  ∧ ((find_image_parent image_id db).2 = Raise AttributeError
     ↔ find_image_loop (images db) image_id = None_)
  ∧ ((find_image_child image_id db).2 = Raise AttributeError
     ↔ find_image_loop (images db) image_id = None_)
  ∧ (∀ e, (find_image_parent image_id db).2 = Raise e → e = AttributeError)
  ∧ (∀ e, (find_image_child image_id db).2 = Raise e → e = AttributeError).
Proof.
  rewrite find_image_parent_run, find_image_child_run. cbn [snd].
  split; [by eexists|]. split; [by eexists|].
  destruct (find_image_loop_cases (images db) image_id) as [-> | (i & ->)].
  - repeat split; try done; by intros e [= <-].
  - repeat split; try done; by destruct (Image.parent_id i).
Qed.

(** ** [add_image] and the family lookups together *)

Lemma find_image_loop_not_str all v :
  isinstance_str v = false → find_image_loop all v = None_.
Proof.
  intros Hv. apply find_image_loop_absent. intros i _.
  by destruct v.
Qed.

(** X22: a valid [image_info] whose [parent_id] is not the identifier of
    a stored image, be it an unknown string or not a string at all, makes
    [add_image] raise [AttributeError] before anything is written. *)
Theorem add_image_unknown_parent (current_time : Z) (user_id : string)
    (d : list (string * pyval)) (parent_id : pyval) (db : DB) :
  well_formed d →
  dict_get d "parent_id" = Some parent_id →
  isinstance_str parent_id = false
  ∨ find_image_loop (images db) parent_id = None_ →
  add_image current_time user_id (PyDict d) db = (db, Raise AttributeError).
Proof.
  intros Hwf Hparent Hcase.
  eapply add_image_parent_not_found; [done..|].
  destruct Hcase; [by apply find_image_loop_not_str | done].
Qed.

(** X23: whenever [add_image] under a stored parent returns (new
    identifier different from the parent's), the two family lookups agree
    with it: [find_image_parent] of the new image returns the parent, as
    saved with its new child, and [find_image_child] of the parent returns
    the old children followed by the new identifier. *)
Theorem add_image_then_family (current_time : Z) (user_id : string)
    (d : list (string * pyval)) (image_id : string) (parent_id : pyval)
    (p : Image.t) (db db' : DB) (j : pyval) :
  dict_get d "image_id" = Some (PyStr image_id) →
  dict_get d "parent_id" = Some parent_id →
  find_image_loop (images db) parent_id = ObjImage p →
  image_id ≠ Image.image_id p →
  add_image current_time user_id (PyDict d) db = (db', Ok j) →
  let p' := Image.set_child_ids p (Image.child_ids p ++ [image_id]) in
  find_image_parent (PyStr image_id) db' = (db', Ok (ObjImage p'))
  ∧ find_image_child parent_id db'
    = (db', Ok (Image.child_ids p ++ [image_id])%list).
Proof.
  intros Hid Hparent Hp Hne Hrun p'.
  destruct (add_image_ok_inv _ _ _ _ _ _ Hrun)
    as (d0 & iid & imgs & ph & pid & u & root_id & z & process
        & [= <-] & _ & Hid0 & Hlin & Hroot & Hu & _ & _ & -> & _).
  rewrite Hid in Hid0. injection Hid0 as <-.
  destruct Hlin as [Hnone | pv p0 Hsome Hp0]; [congruence|].
  rewrite Hparent in Hsome. injection Hsome as <-.
  rewrite Hp in Hp0. injection Hp0 as <-.
  destruct (find_image_loop_found _ _ _ Hp) as (-> & _).
  unfold p' in *.
  assert (Hfind_p :
    find_image_loop
      (put_image (Image.mk image_id user_id current_time
         (default (PyStr "None") (dict_get d "description"))
         (PyStr (Image.image_id p)) [] (Image.process_history p ++ [image_id])
         z process)
         (put_image (Image.set_child_ids p (Image.child_ids p ++ [image_id]))
            (images db)))
      (PyStr (Image.image_id p))
    = ObjImage (Image.set_child_ids p (Image.child_ids p ++ [image_id]))).
  { rewrite find_image_loop_put_ne by (cbn; congruence).
    apply (find_image_loop_put_eq (Image.set_child_ids p _)). }
  split.
  - rewrite find_image_parent_run. cbn [images].
    rewrite (find_image_loop_put_eq (Image.mk image_id _ _ _ _ _ _ _ _)).
    cbn [Image.parent_id]. by rewrite Hfind_p.
  - rewrite find_image_child_run. cbn [images]. by rewrite Hfind_p.
Qed.

(** X24: a root image carries the parent identifier "root", so
    [find_image_parent] of it looks that identifier up: the answer is
    [None] as long as no image is itself named "root", and that image
    otherwise. *)
Theorem find_image_parent_of_root (image_id : pyval) (i : Image.t) (db : DB) :
  find_image_loop (images db) image_id = ObjImage i →
  Image.parent_id i = PyStr "root" →
  find_image_parent image_id db
  = (db, Ok (find_image_loop (images db) (PyStr "root")))
  ∧ ((∀ x, x ∈ images db → Image.image_id x ≠ "root") →
     find_image_parent image_id db = (db, Ok None_)).
Proof.
  intros Hi Hroot. rewrite find_image_parent_run, Hi, Hroot.
  split; [done|]. intros Hnone. do 2 f_equal.
  apply find_image_loop_absent. intros x Hx. simpl.
  apply bool_decide_eq_false. by apply Hnone.
Qed.

Lemma find_image_parent_of_root_witness :
  find_image_parent (PyStr "a") store_a
  = (store_a, Ok (find_image_loop (images store_a) (PyStr "root")))
  ∧ ((∀ x, x ∈ images store_a → Image.image_id x ≠ "root") →
     find_image_parent (PyStr "a") store_a = (store_a, Ok None_)).
Proof.
  apply (find_image_parent_of_root (PyStr "a") parent_a store_a); reflexivity.
Defined.

(** ** Validation, both ways *)

(** X25: [_image_parameter_check] returns normally exactly on the
    well-formed mappings, and then it returns the mapping it was given and
    leaves the store alone; keys beyond the four required ones are not
    looked at. *)
Theorem _image_parameter_check_accepts (image_info : pyval)
    (d : list (string * pyval)) (db db' : DB) :
  _image_parameter_check image_info db = (db', Ok d)
  ↔ db' = db ∧ image_info = PyDict d ∧ well_formed d.
Proof.
  split.
  - intros Hrun.
    destruct (_image_parameter_check_cases image_info db)
      as [(d0 & -> & Hwf & H) | (e & _ & H)];
      rewrite H in Hrun; [|discriminate].
    by injection Hrun as <- <-.
  - intros (-> & -> & Hwf). by apply _image_parameter_check_ok.
Qed.

Lemma find_image_child_found_witness :
  find_image_child (PyStr "a") store_ab = (store_ab, Ok ["b"]).
Proof.
  apply (find_image_child_found (PyStr "a")
           (Image.set_child_ids parent_a ["b"]) store_ab).
  reflexivity.
Defined.

End Store.

(** * Sample runs, on the namespace of [object] of CPython 3.6 *)

(** C4, counterexample: the private helper [_check_grayscale] is accepted,
    though it is neither "upload" nor a public operation. *)
Lemma valid_process_private_helper :
  ¬ (valid_process ProcessingClass.cpython36_object
       (PyStr "_check_grayscale") = true ↔
     ("_check_grayscale" = "upload"
      ∨ "_check_grayscale" ∈ ProcessingClass.public_operations)).
Proof.
  intros [H _]. specialize (H eq_refl) as [H | H]; [discriminate|].
  revert H. apply (proj1 (bool_decide_eq_false _)). by vm_compute.
Qed.

Example valid_process_upload :
  valid_process ProcessingClass.cpython36_object (PyStr "upload") = true.
Proof. reflexivity. Qed.

Example valid_process_nonexistent_fn :
  valid_process ProcessingClass.cpython36_object (PyStr "nonexistent_fn")
  = false.
Proof. reflexivity. Qed.

(** With the namespace of a later interpreter, which has [__getstate__],
    that name is accepted as well. *)
Example valid_process_getstate :
  valid_process
    (("__getstate__", ProcessingClass.Function)
       :: ProcessingClass.cpython36_object) (PyStr "__getstate__") = true
  ∧ valid_process ProcessingClass.cpython36_object (PyStr "__getstate__")
    = false.
Proof. split; reflexivity. Qed.

(** C7, counterexample: the process name [_check_grayscale] is not a
    recognized one, so the input violates a constraint; yet [add_image]
    does not raise: it returns and writes the record. *)
Lemma add_image_accepts_private_helper :
  constraint_violated image_info_private_helper ValueError
  ∧ (add_image ProcessingClass.cpython36_object 0 "u0"
       image_info_private_helper store_u0).2
    = Ok (PyDict [("image_id", PyStr "a"); ("user_id", PyStr "u0")])
  ∧ images (add_image ProcessingClass.cpython36_object 0 "u0"
              image_info_private_helper store_u0).1
    = [Image.mk "a" "u0" 0 (PyStr "None") (PyStr "root") [] ["a"] 5
         "_check_grayscale"].
Proof.
  split; [|split; reflexivity].
  apply (cv_unrecognized _ "_check_grayscale"); [reflexivity|].
  intros [H | H]; [discriminate|].
  revert H. apply (proj1 (bool_decide_eq_false _)). by vm_compute.
Qed.

(** The other way in which the code leaves the taxonomy: an [image_id] of
    the wrong type, the only constraint that the input violates, is
    reported as [ValueError], where [image_data], [processing_time] and
    [process] of the wrong type give [TypeError]. *)
Example add_image_numeric_image_id :
  add_image ProcessingClass.cpython36_object 0 "u0" image_info_numeric_id
    store_u0
  = (store_u0, Raise ValueError)
  ∧ constraint_violated image_info_numeric_id TypeError
  ∧ ∀ e, constraint_violated image_info_numeric_id e → e = TypeError.
Proof.
  split; [reflexivity|]. split.
  - apply (cv_not_str _ "image_id" (PyInt 5)); [set_solver | done..].
  - intros e He.
    inversion He as [v Hv | d k Hk Hn | d k v Hk Hg Hs | d v Hg Hs
                    | d s Hg Hs]; subst; try done.
    + rewrite !elem_of_cons, elem_of_nil in Hk.
      by destruct Hk as [-> | [-> | [-> | [-> | []]]]].
    + injection Hg as <-. destruct Hs. by left.
Qed.

Lemma add_image_rejects_malformed_witness :
  ∃ e, rejection ProcessingClass.cpython36_object image_info_bad_process e
       ∧ e ∈ [TypeError; AttributeError; ValueError]
       ∧ add_image ProcessingClass.cpython36_object 0 "u"
           image_info_bad_process empty_db
         = (empty_db, Raise e).
Proof.
  apply add_image_rejects_malformed. exists ValueError.
  unfold image_info_bad_process.
  eapply rj_process_rejected; reflexivity.
Defined.

Lemma add_image_root_absent_user_witness :
  add_image ProcessingClass.cpython36_object 0 "u1"
    (PyDict [("image_id", PyStr "a"); ("image_data", PyStr "x");
             ("processing_time", PyInt 5); ("process", PyStr "upload")])
    empty_db
  = (mkDB [] [User.mk "u1" ∅], Raise AttributeError).
Proof.
  apply (add_image_root_absent_user ProcessingClass.cpython36_object
           0 "u1" _ empty_db); [|reflexivity..].
  split; simpl; eauto.
Defined.

Lemma add_image_child_absent_user_witness :
  add_image ProcessingClass.cpython36_object 1 "u1" image_info_b
    (mkDB [parent_a] [User.mk "u0" {["a" := "a"]}])
  = (mkDB [Image.set_child_ids parent_a ["b"]]
       [User.mk "u0" {["a" := "a"]}; User.mk "u1" ∅],
     Raise AttributeError).
Proof.
  apply (add_image_child_absent_user ProcessingClass.cpython36_object
           1 "u1" _ "b" (PyStr "a") parent_a
           (mkDB [parent_a] [User.mk "u0" {["a" := "a"]}]));
    [|reflexivity..].
  split; simpl; eauto.
Defined.

(** An image added under its own identifier as parent replaces the
    parent's document, whose child list is then the empty list of the fresh
    record. *)
Example add_image_own_parent :
  images (add_image ProcessingClass.cpython36_object 1 "u0"
            (PyDict [("image_id", PyStr "a"); ("image_data", PyStr "x");
                     ("processing_time", PyInt 7); ("process", PyStr "blur");
                     ("parent_id", PyStr "a")])
            (mkDB [parent_a] [User.mk "u0" ∅])).1
  = [Image.mk "a" "u0" 1 (PyStr "None") (PyStr "a") [] ["a"; "a"] 7 "blur"].
Proof. reflexivity. Qed.

Lemma image_info_a_well_formed :
  well_formed ProcessingClass.cpython36_object fields_a.
Proof. split; simpl; eauto. Qed.

Lemma image_info_b_well_formed :
  well_formed ProcessingClass.cpython36_object fields_b.
Proof. split; simpl; eauto. Qed.

Lemma add_image_a_run :
  add_image ProcessingClass.cpython36_object 0 "u0" image_info_a store_u0
  = (store_a, Ok (PyDict [("image_id", PyStr "a"); ("user_id", PyStr "u0")])).
Proof. vm_compute. reflexivity. Qed.

Lemma add_image_b_run :
  add_image ProcessingClass.cpython36_object 1 "u0" image_info_b store_a
  = (store_ab, Ok (PyDict [("image_id", PyStr "b"); ("user_id", PyStr "u0")])).
Proof. vm_compute. reflexivity. Qed.

Lemma add_image_root_present_user_witness :
  PyDict [("image_id", PyStr "a"); ("user_id", PyStr "u0")]
  = PyDict [("image_id", PyStr "a"); ("user_id", PyStr "u0")]
  ∧ (∃ u, find_user_loop (users store_u0) "u0" = ObjUser u)
  ∧ ∃ i,
      find_image_loop (images store_a) (PyStr "a") = ObjImage i
      ∧ Image.process_history i = ["a"]
      ∧ Image.parent_id i = PyStr "root"
      ∧ ∃ u', find_user_loop (users store_a) "u0" = ObjUser u'
              ∧ User.uploads u' !! "a" = Some "a".
Proof.
  apply (add_image_root_present_user ProcessingClass.cpython36_object
           0 "u0" fields_a "a" store_u0 store_a).
  - apply image_info_a_well_formed.
  - reflexivity.
  - reflexivity.
  - apply add_image_a_run.
Defined.

Lemma add_image_child_present_user_witness :
  PyDict [("image_id", PyStr "b"); ("user_id", PyStr "u0")]
  = PyDict [("image_id", PyStr "b"); ("user_id", PyStr "u0")]
  ∧ ∃ p' i,
      find_image_loop (images store_ab) (PyStr "a") = ObjImage p'
      ∧ Image.child_ids p' = (Image.child_ids parent_a ++ ["b"])%list
      ∧ Image.process_history p' = Image.process_history parent_a
      ∧ find_image_loop (images store_ab) (PyStr "b") = ObjImage i
      ∧ Image.process_history i
        = (Image.process_history parent_a ++ ["b"])%list
      ∧ Image.parent_id i = PyStr "a".
Proof.
  apply (add_image_child_present_user ProcessingClass.cpython36_object
           1 "u0" fields_b "b" (PyStr "a") parent_a store_a store_ab).
  - apply image_info_b_well_formed.
  - reflexivity.
  - reflexivity.
  - reflexivity.
  - discriminate.
  - apply add_image_b_run.
Defined.

Lemma add_image_returns_only_if_witness :
  ∃ d, image_info_b = PyDict d
       ∧ well_formed ProcessingClass.cpython36_object d
       ∧ (∃ u, find_user_loop (users store_a) "u0" = ObjUser u)
       ∧ (dict_get d "parent_id" = None
          ∨ ∃ parent_id p,
              dict_get d "parent_id" = Some parent_id
              ∧ find_image_loop (images store_a) parent_id = ObjImage p).
Proof.
  apply (add_image_returns_only_if ProcessingClass.cpython36_object
           1 "u0" image_info_b store_a store_ab
           (PyDict [("image_id", PyStr "b"); ("user_id", PyStr "u0")])).
  apply add_image_b_run.
Defined.

Lemma add_image_success_record_witness :
  ∃ d image_id i u' root_id,
    image_info_b = PyDict d
    ∧ dict_get d "image_id" = Some (PyStr image_id)
    ∧ PyDict [("image_id", PyStr "b"); ("user_id", PyStr "u0")]
      = PyDict [("image_id", PyStr image_id); ("user_id", PyStr "u0")]
    ∧ find_image_loop (images store_ab) (PyStr image_id) = ObjImage i
    ∧ Image.user_id i = "u0"
    ∧ Image.child_ids i = []
    ∧ (∀ s, default (PyStr "None") (dict_get d "description") = PyStr s →
            Image.description i = PyStr s)
    ∧ dict_get d "process" = Some (PyStr (Image.process i))
    ∧ (∃ t, dict_get d "processing_time" = Some t
            ∧ py_int t = Ok (Image.processing_time i))
    ∧ Image.parent_id i = default (PyStr "root") (dict_get d "parent_id")
    ∧ last (Image.process_history i) = Some image_id
    ∧ Image.process_history i !! 0%nat = Some root_id
    ∧ find_user_loop (users store_ab) "u0" = ObjUser u'
    ∧ User.uploads u' !! root_id = Some image_id.
Proof.
  apply (add_image_success_record ProcessingClass.cpython36_object
           1 "u0" image_info_b store_a store_ab).
  apply add_image_b_run.
Defined.

Lemma add_image_keeps_invariants_witness :
  unique_ids
    (add_image ProcessingClass.cpython36_object 1 "u0" image_info_b
       store_a).1
  ∧ history_ends_with_id
      (add_image ProcessingClass.cpython36_object 1 "u0" image_info_b
         store_a).1.
Proof.
  apply (add_image_keeps_invariants ProcessingClass.cpython36_object
           1 "u0" image_info_b store_a);
    apply store_a_invariants.
Defined.

Lemma add_image_unknown_parent_witness :
  add_image ProcessingClass.cpython36_object 1 "u0"
    (PyDict [("image_id", PyStr "b"); ("image_data", PyStr "x");
             ("processing_time", PyInt 7); ("process", PyStr "blur");
             ("parent_id", PyInt 3)]) store_a
  = (store_a, Raise AttributeError).
Proof.
  apply (add_image_unknown_parent ProcessingClass.cpython36_object
           1 "u0" _ (PyInt 3) store_a).
  - split; simpl; eauto.
  - reflexivity.
  - by left.
Defined.

Lemma add_image_then_family_witness :
  let p' := Image.set_child_ids parent_a (Image.child_ids parent_a ++ ["b"]) in
  find_image_parent (PyStr "b") store_ab = (store_ab, Ok (ObjImage p'))
  ∧ find_image_child (PyStr "a") store_ab
    = (store_ab, Ok (Image.child_ids parent_a ++ ["b"])%list).
Proof.
  apply (add_image_then_family ProcessingClass.cpython36_object
           1 "u0" fields_b "b" (PyStr "a") parent_a store_a store_ab
           (PyDict [("image_id", PyStr "b"); ("user_id", PyStr "u0")]));
    [reflexivity | reflexivity | reflexivity | discriminate
    | apply add_image_b_run].
Defined.
